(** * WCDB core: connection handle, nested transactions, error classifier

    A shallow embedding of [AbstractHandle.cpp] (the connection aggregate
    sitting on top of the embedded SQL engine), of the statement interface
    declared in [HandleStatement.hpp] and of the checkpoint policy declared
    in [CheckpointConfig.hpp].

    The embedded engine is an external collaborator: it is taken as a
    parameter ([Env]) and every engine call of the source is a call of the
    corresponding field.  The handle's members become fields of a [World]
    record that is threaded through a state monad; [None] stands for a call
    without a result: a violated inner assertion ([WCTInnerAssert]), after
    which the C++ code has no defined behaviour, or a loop that does not
    end. *)

From Stdlib Require Import ZArith String List Bool Lia QArith.
From stdpp Require Import gmap strings list pretty.

Local Open Scope Z_scope.

(** ** Engine result codes (sqlite3.h) *)

Definition SQLITE_OK : Z := 0.
Definition SQLITE_ERROR : Z := 1.
Definition SQLITE_BUSY : Z := 5.
Definition SQLITE_MISUSE : Z := 21.
Definition SQLITE_ROW : Z := 100.
Definition SQLITE_DONE : Z := 101.

(** ** Machine integers

    [m_nestedLevel] is a C++ [int]; [++] and [--] are modelled with 32-bit
    two's-complement wrap-around. *)

Definition INT_MIN : Z := - 2 ^ 31.
Definition INT_MAX : Z := 2 ^ 31 - 1.

Definition wrap_int (z : Z) : Z := (z + 2 ^ 31) mod 2 ^ 32 - 2 ^ 31.

Definition in_int (z : Z) : Prop := INT_MIN <= z <= INT_MAX.

(** [std::to_string(int)] *)
Definition to_string (z : Z) : string := pretty z.

(** ** Error records *)

Inductive ErrorLevel : Type :=
| LevelIgnore
| LevelError.

(** Modelled from the spec: the [Error] class ([Error.hpp] is not among the
    sources).  "Error record -- result code, optional extended code,
    human-readable message, severity ([Error] or [Ignore]), free-form
    key/value context". *)
Record Error : Type := mkError {
  code : Z;
  extendedCode : option Z;
  level : ErrorLevel;
  message : string;
  infos : gmap string string
}.

(** Modelled from the spec: [Error::setSQLiteCode], with or without the
    extended code ("optional extended code"). *)
Definition setSQLiteCode (rc : Z) (ext : option Z) (e : Error) : Error :=
  {| code := rc;
     extendedCode := match ext with Some x => Some x | None => extendedCode e end;
     level := level e;
     message := message e;
     infos := infos e |}.

(** Assignments to the members [level], [message] and [infos]. *)
Definition setLevel (l : ErrorLevel) (e : Error) : Error :=
  {| code := code e; extendedCode := extendedCode e; level := l;
     message := message e; infos := infos e |}.

Definition setMessage (m : string) (e : Error) : Error :=
  {| code := code e; extendedCode := extendedCode e; level := level e;
     message := m; infos := infos e |}.

Definition setInfo (k v : string) (e : Error) : Error :=
  {| code := code e; extendedCode := extendedCode e; level := level e;
     message := message e; infos := <[k := v]> (infos e) |}.

(** ** Structured statements (WINQ)

    Only the statement shapes built by [AbstractHandle.cpp]; their SQL text
    is produced by [getDescription], a field of [Env]. *)

Inductive Statement : Type :=
| StatementBegin_beginImmediate
| StatementCommit_commit
| StatementRollback_rollback
| StatementRollback_rollbackToSavepoint (savepointName : string)
| StatementSavepoint_savepoint (savepointName : string)
| StatementRelease_release (savepointName : string)
| StatementSelect_select1_from_limit0 (table : string)
| StatementPragma_tableInfo (schema table : string).

(** ** Compiled statements

    The engine's [sqlite3_stmt]: a compiled statement is the run of rows it
    will deliver, followed by the result code it answers once they are
    delivered ([SQLITE_DONE] or a failure code). *)

Record sqlite3_stmt : Type := mkStmt {
  stmt_sql : string;
  stmt_row : list string;
  stmt_pending : list (list string);
  stmt_final : Z
}.

Definition sqlite3_step (s : sqlite3_stmt) : Z * sqlite3_stmt :=
  match stmt_pending s with
  | r :: rest =>
      (SQLITE_ROW,
       {| stmt_sql := stmt_sql s; stmt_row := r;
          stmt_pending := rest; stmt_final := stmt_final s |})
  | [] => (stmt_final s, s)
  end.

Definition sqlite3_column_text (s : sqlite3_stmt) (index : Z) : string :=
  if index <? 0 then EmptyString
  else nth (Z.to_nat index) (stmt_row s) EmptyString.

(** ** The external collaborators *)

Record Env : Type := mkEnv {
  (** the engine's connection object, [sqlite3 *] *)
  sqlite3 : Type;
  (** everything the engine keeps behind its connections *)
  engine : Type;
  sqlite3_exec : sqlite3 -> string -> engine -> Z * engine;
  sqlite3_get_autocommit : sqlite3 -> engine -> Z;
  sqlite3_errcode : sqlite3 -> engine -> Z;
  sqlite3_extended_errcode : sqlite3 -> engine -> Z;
  sqlite3_errmsg : sqlite3 -> engine -> option string;
  sqlite3_prepare_v2 :
    sqlite3 -> string -> engine -> Z * option sqlite3_stmt * engine;
  (** what a step that returned the given code leaves behind in the engine *)
  sqlite3_stepped : sqlite3_stmt -> Z -> engine -> engine;
  sqlite3_finalize : sqlite3_stmt -> engine -> engine;
  sqlite3_close_v2 : sqlite3 -> engine -> engine;
  (** WINQ: SQL text of a structured statement *)
  getDescription : Statement -> string;
  (** [Assertion.hpp]: how a failed remedial assertion is reported to the
      process-wide sink *)
  fatalError : string -> list Error -> list Error
}.

(** ** Notification registry *)

(** Modelled from the spec: [HandleNotification] is not among the sources.
    "Notification Entry -- a (name, order, callback) triple, unique per name
    within one hook kind"; "[purge()] clears all five maps".  Only the
    will-checkpoint kind, the one [close] registers on, is kept. *)
Record HandleNotification : Type := mkNotification {
  willCheckpointNotifications : gmap string (Z * (string -> bool))
}.

(** Modelled from the spec: "[purge()] clears all five maps". *)
Definition purge (n : HandleNotification) : HandleNotification :=
  {| willCheckpointNotifications := ∅ |}.

(** Modelled from the spec: [setNotificationWhenWillCheckpoint], "set/replace
    by name". *)
Definition registerWillCheckpoint (order : Z) (name : string)
    (willCheckpoint : string -> bool) (n : HandleNotification)
  : HandleNotification :=
  {| willCheckpointNotifications :=
       <[name := (order, willCheckpoint)]> (willCheckpointNotifications n) |}.

(** ** Statement objects *)

Record HandleStatement : Type := mkHandleStatement {
  m_stmt : option sqlite3_stmt
}.

Section Handle.

Context (env : Env).

(** ** The connection and its surroundings

    The members of [AbstractHandle], the engine state, the process-wide
    notifier and the allocator of statement addresses. *)

Record World : Type := mkWorld {
  m_handle : option (sqlite3 env);
  m_error : Error;
  m_nestedLevel : Z;
  m_codeToBeIgnored : Z;
  (** [std::list<HandleStatement>]: each element with its address *)
  m_handleStatements : list (nat * HandleStatement);
  m_notification : HandleNotification;
  db : engine env;
  notifier : list Error;
  next_address : nat
}.

Definition set_m_handle (v : option (sqlite3 env)) (w : World) : World :=
  {| m_handle := v; m_error := m_error w; m_nestedLevel := m_nestedLevel w;
     m_codeToBeIgnored := m_codeToBeIgnored w;
     m_handleStatements := m_handleStatements w;
     m_notification := m_notification w; db := db w;
     notifier := notifier w; next_address := next_address w |}.

Definition set_m_error (v : Error) (w : World) : World :=
  {| m_handle := m_handle w; m_error := v; m_nestedLevel := m_nestedLevel w;
     m_codeToBeIgnored := m_codeToBeIgnored w;
     m_handleStatements := m_handleStatements w;
     m_notification := m_notification w; db := db w;
     notifier := notifier w; next_address := next_address w |}.

Definition set_m_nestedLevel (v : Z) (w : World) : World :=
  {| m_handle := m_handle w; m_error := m_error w; m_nestedLevel := v;
     m_codeToBeIgnored := m_codeToBeIgnored w;
     m_handleStatements := m_handleStatements w;
     m_notification := m_notification w; db := db w;
     notifier := notifier w; next_address := next_address w |}.

Definition set_m_codeToBeIgnored (v : Z) (w : World) : World :=
  {| m_handle := m_handle w; m_error := m_error w;
     m_nestedLevel := m_nestedLevel w; m_codeToBeIgnored := v;
     m_handleStatements := m_handleStatements w;
     m_notification := m_notification w; db := db w;
     notifier := notifier w; next_address := next_address w |}.

Definition set_m_handleStatements (v : list (nat * HandleStatement))
    (w : World) : World :=
  {| m_handle := m_handle w; m_error := m_error w;
     m_nestedLevel := m_nestedLevel w;
     m_codeToBeIgnored := m_codeToBeIgnored w; m_handleStatements := v;
     m_notification := m_notification w; db := db w;
     notifier := notifier w; next_address := next_address w |}.

Definition set_m_notification (v : HandleNotification) (w : World) : World :=
  {| m_handle := m_handle w; m_error := m_error w;
     m_nestedLevel := m_nestedLevel w;
     m_codeToBeIgnored := m_codeToBeIgnored w;
     m_handleStatements := m_handleStatements w; m_notification := v;
     db := db w; notifier := notifier w; next_address := next_address w |}.

Definition set_db (v : engine env) (w : World) : World :=
  {| m_handle := m_handle w; m_error := m_error w;
     m_nestedLevel := m_nestedLevel w;
     m_codeToBeIgnored := m_codeToBeIgnored w;
     m_handleStatements := m_handleStatements w;
     m_notification := m_notification w; db := v;
     notifier := notifier w; next_address := next_address w |}.

Definition set_notifier (v : list Error) (w : World) : World :=
  {| m_handle := m_handle w; m_error := m_error w;
     m_nestedLevel := m_nestedLevel w;
     m_codeToBeIgnored := m_codeToBeIgnored w;
     m_handleStatements := m_handleStatements w;
     m_notification := m_notification w; db := db w;
     notifier := v; next_address := next_address w |}.

Definition set_next_address (v : nat) (w : World) : World :=
  {| m_handle := m_handle w; m_error := m_error w;
     m_nestedLevel := m_nestedLevel w;
     m_codeToBeIgnored := m_codeToBeIgnored w;
     m_handleStatements := m_handleStatements w;
     m_notification := m_notification w; db := db w;
     notifier := notifier w; next_address := v |}.

(** ** The monad of handle operations *)

Definition M (A : Type) : Type := World -> option (A * World).

#[global] Instance M_ret : MRet M := fun A a w => Some (a, w).

#[global] Instance M_bind : MBind M := fun A B f m w =>
  match m w with
  | Some (a, w') => f a w'
  | None => None
  end.

Definition get {A : Type} (f : World -> A) : M A := fun w => Some (f w, w).

Definition modify (f : World -> World) : M unit := fun w => Some (tt, f w).

(** A violated [WCTInnerAssert]. *)
Definition assertionFailure {A : Type} : M A := fun _ => None.

(** [WCTInnerAssert(isOpened())] followed by the use of [m_handle]. *)
Definition openedHandle : M (sqlite3 env) := fun w =>
  match m_handle w with
  | Some p => Some (p, w)
  | None => None
  end.

(** Modelled from the spec: [Notifier::shared()->notify(error)], the
    "single process-wide observability sink" every classified error is
    pushed to. *)
Definition notify (e : Error) : M unit :=
  modify (fun w => set_notifier (notifier w ++ [e]) w).

(** Modelled from the spec: the macro [WCTRemedialAssert(cond, message,
    remedial)] of [Assertion.hpp].  Violations "are detected defensively and
    remediated in place rather than propagated": the message is reported,
    then the remedial code runs. *)
Definition WCTRemedialAssert (cond : bool) (msg : string) (remedial : M unit)
  : M unit :=
  if cond then mret tt
  else (modify (fun w => set_notifier (fatalError env msg (notifier w)) w) ;;
        remedial).

(** ** Basic *)

Definition isOpened : M bool := get (fun w => bool_decide (m_handle w <> None)).

Definition getExtendedErrorCode : M Z :=
  p ← openedHandle; get (fun w => sqlite3_extended_errcode env p (db w)).

Definition getResultCode : M Z :=
  p ← openedHandle; get (fun w => sqlite3_errcode env p (db w)).

Definition getErrorMessage : M (option string) :=
  p ← openedHandle; get (fun w => sqlite3_errmsg env p (db w)).

Definition isInTransaction : M bool :=
  p ← openedHandle;
  get (fun w => sqlite3_get_autocommit env p (db w) =? 0).

(** ** Error *)

Definition markErrorAsIgnorable (codeToBeIgnored : Z) : M unit :=
  modify (set_m_codeToBeIgnored codeToBeIgnored).

Definition markErrorAsUnignorable : M unit :=
  modify (set_m_codeToBeIgnored SQLITE_OK).

(** [m_codeToBeIgnored >= 0 && rc != m_codeToBeIgnored] *)
Definition nonIgnorable (codeToBeIgnored rc : Z) : bool :=
  (0 <=? codeToBeIgnored) && negb (rc =? codeToBeIgnored).

(** [error] is passed by reference: the updated record is returned. *)
Definition setupAndNotifyError (error : Error) (rc : Z) (sql : string)
  : M Error :=
  error ← (if negb (rc =? SQLITE_MISUSE)
           then ext ← getExtendedErrorCode;
                mret (setSQLiteCode rc (Some ext) error)
           else mret (setSQLiteCode rc None error));
  codeToBeIgnored ← get m_codeToBeIgnored;
  let error :=
    if nonIgnorable codeToBeIgnored rc
    then setLevel LevelError error
    else setLevel LevelIgnore error in
  message ← getErrorMessage;
  let error :=
    match message with
    | Some m => setMessage m error
    | None => setMessage EmptyString error
    end in
  let error := setInfo "SQL" sql error in
  notify error ;;
  mret error.

Definition error (rc : Z) (sql : string) : M bool :=
  if rc =? SQLITE_OK then assertionFailure
  else
    codeToBeIgnored ← get m_codeToBeIgnored;
    if nonIgnorable codeToBeIgnored rc then
      m_error' ← (e ← get m_error; setupAndNotifyError e rc sql);
      modify (set_m_error m_error') ;;
      mret false
    else
      e ← get m_error;
      setupAndNotifyError e rc sql ;;
      mret true.

Definition execute (sql : string) : M bool :=
  p ← openedHandle;
  e ← get db;
  let '(rc, e') := sqlite3_exec env p sql e in
  modify (set_db e') ;;
  if rc =? SQLITE_OK then mret true else error rc sql.

(** ** Transaction *)

Definition savepointPrefix : string := "WCDBSavepoint_".

Definition beginTransaction : M bool :=
  execute (getDescription env StatementBegin_beginImmediate).

Definition commitOrRollbackTransaction : M bool :=
  modify (set_m_nestedLevel 0) ;;
  ok ← execute (getDescription env StatementCommit_commit);
  if negb ok then
    markErrorAsIgnorable (-1) ;;
    execute (getDescription env StatementRollback_rollback) ;;
    markErrorAsUnignorable ;;
    mret false
  else mret true.

Definition rollbackTransaction : M unit :=
  modify (set_m_nestedLevel 0) ;;
  markErrorAsIgnorable (-1) ;;
  execute (getDescription env StatementRollback_rollback) ;;
  markErrorAsUnignorable.

(** [++m_nestedLevel]: the new value *)
Definition preIncrementNestedLevel : M Z :=
  l ← get m_nestedLevel;
  modify (set_m_nestedLevel (wrap_int (l + 1))) ;;
  mret (wrap_int (l + 1)).

(** [m_nestedLevel--]: the old value *)
Definition postDecrementNestedLevel : M Z :=
  l ← get m_nestedLevel;
  modify (set_m_nestedLevel (wrap_int (l - 1))) ;;
  mret l.

Definition beginNestedTransaction : M bool :=
  inTransaction ← isInTransaction;
  if negb inTransaction then beginTransaction
  else
    l ← preIncrementNestedLevel;
    let savepointName := (savepointPrefix +:+ to_string l)%string in
    execute (getDescription env (StatementSavepoint_savepoint savepointName)).

Definition commitOrRollbackNestedTransaction : M bool :=
  l ← get m_nestedLevel;
  if l =? 0 then commitOrRollbackTransaction
  else
    l ← postDecrementNestedLevel;
    let savepointName := (savepointPrefix +:+ to_string l)%string in
    ok ← execute (getDescription env (StatementRelease_release savepointName));
    if negb ok then
      markErrorAsIgnorable (-1) ;;
      execute (getDescription env
                 (StatementRollback_rollbackToSavepoint savepointName)) ;;
      markErrorAsUnignorable ;;
      mret false
    else mret true.

Definition rollbackNestedTransaction : M unit :=
  l ← get m_nestedLevel;
  if l =? 0 then rollbackTransaction
  else
    l ← postDecrementNestedLevel;
    let savepointName := (savepointPrefix +:+ to_string l)%string in
    markErrorAsIgnorable (-1) ;;
    execute (getDescription env
               (StatementRollback_rollbackToSavepoint savepointName)) ;;
    markErrorAsUnignorable.

(** ** Statement

    The member functions declared in [HandleStatement.hpp];
    [HandleStatement.cpp] is not among the sources.  The object is passed by
    reference: the updated object is returned. *)

(** Modelled from the spec: [HandleStatement::isPrepared].  "State: opaque
    compiled form (absent until [prepare])". *)
Definition isPrepared (hs : HandleStatement) : bool :=
  match m_stmt hs with Some _ => true | None => false end.

(** Modelled from the spec: [HandleStatement::prepare].  "Prepared from SQL
    text or a structured statement description"; the probes "observe
    whether it prepared successfully".  A failure of the engine is classified
    by [error], and the member reports that the statement is not prepared. *)
Definition HandleStatement_prepare (statement : Statement)
    (hs : HandleStatement) : M (bool * HandleStatement) :=
  let sql := getDescription env statement in
  p ← openedHandle;
  e ← get db;
  let '(rc, stmt, e') := sqlite3_prepare_v2 env p sql e in
  modify (set_db e') ;;
  if rc =? SQLITE_OK then mret (true, {| m_stmt := stmt |})
  else error rc sql ;; mret (false, {| m_stmt := stmt |}).

(** Modelled from the spec: [HandleStatement::step(bool &done)], the result
    and [done].  "Stepped zero or more times"; "attempting to use an
    unprepared statement is an error".  A row or the end of the run is a
    success; any other code is classified by [error] and reported as
    failure. *)
Definition HandleStatement_step_done (hs : HandleStatement)
  : M (bool * bool * HandleStatement) :=
  match m_stmt hs with
  | None => assertionFailure
  | Some s =>
      let '(rc, s') := sqlite3_step s in
      modify (fun w => set_db (sqlite3_stepped env s rc (db w)) w) ;;
      let done := rc =? SQLITE_DONE in
      if (rc =? SQLITE_ROW) || (rc =? SQLITE_DONE)
      then mret (true, done, {| m_stmt := Some s' |})
      else error rc (stmt_sql s) ;; mret (false, done, {| m_stmt := Some s' |})
  end.

(** Modelled from the spec: [HandleStatement::step()], a step whose [done]
    is dropped. *)
Definition HandleStatement_step (hs : HandleStatement)
  : M (bool * HandleStatement) :=
  '(ok, _, hs') ← HandleStatement_step_done hs;
  mret (ok, hs').

(** Modelled from the spec: [HandleStatement::finalize].  "Finalized or
    implicitly dropped": the compiled form, when there is one, is released. *)
Definition HandleStatement_finalize (hs : HandleStatement)
  : M (unit * HandleStatement) :=
  match m_stmt hs with
  | None => mret (tt, hs)
  | Some s =>
      modify (fun w => set_db (sqlite3_finalize env s (db w)) w) ;;
      mret (tt, {| m_stmt := None |})
  end.

(** Modelled from the spec: [HandleStatement::getText], a "typed column
    reader by index" of the current row. *)
Definition HandleStatement_getText (index : Z) (hs : HandleStatement)
  : M (string * HandleStatement) :=
  match m_stmt hs with
  | None => assertionFailure
  | Some s => mret (sqlite3_column_text s index, hs)
  end.

(** ** Statement pool *)

Fixpoint lookupStatement (a : nat) (l : list (nat * HandleStatement))
  : option HandleStatement :=
  match l with
  | [] => None
  | (b, hs) :: rest => if Nat.eqb a b then Some hs else lookupStatement a rest
  end.

Fixpoint storeStatement (a : nat) (hs' : HandleStatement)
    (l : list (nat * HandleStatement)) : list (nat * HandleStatement) :=
  match l with
  | [] => []
  | (b, hs) :: rest =>
      if Nat.eqb a b then (b, hs') :: rest
      else (b, hs) :: storeStatement a hs' rest
  end.

(** The loop of [returnStatement]: erase the first element at the address. *)
Fixpoint eraseStatement (a : nat) (l : list (nat * HandleStatement))
  : list (nat * HandleStatement) :=
  match l with
  | [] => []
  | (b, hs) :: rest =>
      if Nat.eqb a b then rest else (b, hs) :: eraseStatement a rest
  end.

(** [handleStatement->f(...)]: a member call through a pointer into the
    pool.  A pointer to no element has no defined behaviour. *)
Definition viaPointer {A : Type} (a : nat)
    (f : HandleStatement -> M (A * HandleStatement)) : M A :=
  l ← get m_handleStatements;
  match lookupStatement a l with
  | None => assertionFailure
  | Some hs =>
      '(r, hs') ← f hs;
      modify (fun w =>
        set_m_handleStatements (storeStatement a hs' (m_handleStatements w)) w) ;;
      mret r
  end.

Definition getStatement : M nat :=
  a ← get next_address;
  modify (fun w =>
    set_next_address (S a)
      (set_m_handleStatements
         (m_handleStatements w ++ [(a, {| m_stmt := None |})]) w)) ;;
  mret a.

Definition returnStatement (handleStatement : option nat) : M unit :=
  match handleStatement with
  | None => mret tt
  | Some a =>
      modify (fun w =>
        set_m_handleStatements (eraseStatement a (m_handleStatements w)) w)
  end.

(** The loop of [finalizeStatements], with [WCTRemedialAssert] unfolded in
    its body since the remedial code updates the statement it visits. *)
Fixpoint finalizeEach (l : list (nat * HandleStatement))
  : M (list (nat * HandleStatement)) :=
  match l with
  | [] => mret []
  | (a, hs) :: rest =>
      hs' ← (if negb (isPrepared hs) then mret hs
             else
               modify (fun w =>
                 set_notifier
                   (fatalError env "Statement is not finalized." (notifier w)) w) ;;
               '(_, hs') ← HandleStatement_finalize hs;
               mret hs');
      rest' ← finalizeEach rest;
      mret ((a, hs') :: rest')
  end.

Definition finalizeStatements : M unit :=
  l ← get m_handleStatements;
  l' ← finalizeEach l;
  modify (set_m_handleStatements l').

(** ** Meta *)

Definition tableExists (table : string) : M (bool * bool) :=
  handleStatement ← getStatement;
  let statementSelect := StatementSelect_select1_from_limit0 table in
  markErrorAsIgnorable SQLITE_ERROR ;;
  prepared ← viaPointer handleStatement (HandleStatement_prepare statementSelect);
  result ← ((if (prepared : bool)
             then r ← viaPointer handleStatement HandleStatement_step;
                  viaPointer handleStatement HandleStatement_finalize ;;
                  mret r
             else mret false) : M bool);
  markErrorAsUnignorable ;;
  returnStatement (Some handleStatement) ;;
  if (result : bool) then mret (true, result)
  else rc ← getResultCode; mret (rc =? SQLITE_ERROR, result).

(** [while (handleStatement->step(done) && !done) values.emplace(...)].
    Every turn but the last consumes one pending row, so the number of rows
    pending at entry, plus one, bounds the number of turns of a run that
    ends.  A statement that answers [SQLITE_ROW] for ever exhausts the
    bound: the loop has no result. *)
Fixpoint getValues_loop (turns : nat) (handleStatement : nat) (index : Z)
    (values : gset string) : M (bool * gset string) :=
  match turns with
  | O => assertionFailure
  | S turns' =>
      '(ok, done) ← viaPointer handleStatement HandleStatement_step_done;
      if ok && negb done then
        text ← viaPointer handleStatement (HandleStatement_getText index);
        getValues_loop turns' handleStatement index (values ∪ {[ text ]})
      else mret (done, values)
  end.

(** The rows a statement has still to deliver: the bound of the loop. *)
Definition pendingRows (hs : HandleStatement) : nat :=
  match m_stmt hs with
  | Some s => length (stmt_pending s)
  | None => O
  end.

Definition getValues (statement : Statement) (index : Z)
  : M (bool * gset string) :=
  handleStatement ← getStatement;
  prepared ← viaPointer handleStatement (HandleStatement_prepare statement);
  '(done, values) ←
    (if (prepared : bool)
     then
       turns ← viaPointer handleStatement (fun hs => mret (S (pendingRows hs), hs));
       r ← getValues_loop turns handleStatement index ∅;
       viaPointer handleStatement HandleStatement_finalize ;;
       mret r
     else mret (false, ∅));
  returnStatement (Some handleStatement) ;;
  let values := if negb done then ∅ else values in
  mret (done, values).

Definition getColumns (schema table : string) : M (bool * gset string) :=
  getValues (StatementPragma_tableInfo schema table) 1.

(** ** Close *)

Definition close : M unit :=
  h ← get m_handle;
  match h with
  | None => mret tt
  | Some p =>
      finalizeStatements ;;
      l ← get m_nestedLevel;
      paired ← (if l =? 0 then inTransaction ← isInTransaction;
                               mret (negb inTransaction)
                else mret false);
      WCTRemedialAssert paired "Unpaired transaction."
        (modify (set_m_nestedLevel 0) ;; rollbackTransaction) ;;
      modify (fun w => set_m_notification (purge (m_notification w)) w) ;;
      modify (fun w =>
        set_m_notification
          (registerWillCheckpoint INT_MIN "close" (fun _ => false)
             (m_notification w)) w) ;;
      modify (fun w => set_db (sqlite3_close_v2 env p (db w)) w) ;;
      modify (set_m_handle None) ;;
      modify (fun w => set_m_notification (purge (m_notification w)) w)
  end.

End Handle.

Arguments M_ret {env} _ _ _ /.
Arguments M_bind {env} _ _ _ _ _ /.

(** ** Sequences of transaction calls *)

Inductive EndCall : Type :=
| CommitOrRollback
| Rollback.

Inductive Call : Type :=
| Begin
| End (c : EndCall).

Section Calls.

Context (env : Env).

Definition endCall (c : EndCall) : M env unit :=
  match c with
  | CommitOrRollback => commitOrRollbackNestedTransaction env ;; mret tt
  | Rollback => rollbackNestedTransaction env
  end.

Definition call (c : Call) : M env unit :=
  match c with
  | Begin => beginNestedTransaction env ;; mret tt
  | End c => endCall c
  end.

Fixpoint calls (cs : list Call) : M env unit :=
  match cs with
  | [] => mret tt
  | c :: cs' => call c ;; calls cs'
  end.

(** [N] calls of [beginNestedTransaction], then the given closing calls. *)
Definition pairedCalls (N : nat) (ends : list EndCall) : list Call :=
  repeat Begin N ++ map End ends.

(** The statements that act on a savepoint. *)
Definition isSavepointStatement (s : Statement) : bool :=
  match s with
  | StatementSavepoint_savepoint _
  | StatementRelease_release _
  | StatementRollback_rollbackToSavepoint _ => true
  | _ => false
  end.

(** The engine keeps the real transaction open across the savepoint
    statements: they never switch the connection back to autocommit. *)
Definition SavepointsKeepTransaction : Prop :=
  forall (p : sqlite3 env) (e : engine env) (s : Statement),
    isSavepointStatement s = true ->
    sqlite3_get_autocommit env p e = 0 ->
    sqlite3_get_autocommit env p
      (snd (sqlite3_exec env p (getDescription env s) e)) = 0.

(** How the engine answers the existence probe of [tableExists]: for a table
    that is not in the schema the statement does not compile, the call
    fails with [SQLITE_ERROR], and that is the connection's result code; for
    a table of the schema the statement compiles and its run ends, with or
    without a row. *)
Definition probeReportsAbsent (p : sqlite3 env) (e : engine env)
    (table : string) : Prop :=
  let '(rc, stmt, e') :=
    sqlite3_prepare_v2 env p
      (getDescription env (StatementSelect_select1_from_limit0 table)) e in
  rc = SQLITE_ERROR /\ sqlite3_errcode env p e' = SQLITE_ERROR.

Definition probeReportsPresent (p : sqlite3 env) (e : engine env)
    (table : string) : Prop :=
  let '(rc, stmt, e') :=
    sqlite3_prepare_v2 env p
      (getDescription env (StatementSelect_select1_from_limit0 table)) e in
  rc = SQLITE_OK /\
  exists s, stmt = Some s /\
    (fst (sqlite3_step s) = SQLITE_DONE \/ fst (sqlite3_step s) = SQLITE_ROW).

End Calls.

(** ** Checkpoint policy *)

Definition framesThresholdForCritical : Z := 100.
Definition delayForCritical : Q := 1%Q.
Definition delayForNonCritical : Q := 10%Q.

(** Modelled from the spec: the shared scheduling queue ([CheckpointQueue]
    is not among the sources).  It tracks "a per-path counter" of pages and
    receives the scheduling requests, each a path with a delay. *)
Record CheckpointQueue : Type := mkQueue {
  accumulated : gmap string Z;
  requests : list (string * Q)
}.

(** Modelled from the spec: the per-path counter, 0 for a path that has not
    committed yet. *)
Definition accumulatedPages (path : string) (q : CheckpointQueue) : Z :=
  default 0 (accumulated q !! path).

(** Modelled from the spec: [CheckpointConfig::onCommitted]
    ([CheckpointConfig.cpp] is not among the sources).  "On each commit
    notification carrying a page count p for path P: accumulate p into a
    per-path counter tracked by the shared scheduling queue; if the
    accumulated count reaches the critical threshold (100 pages), request
    urgent scheduling with a short delay (1.0 time unit); otherwise request
    scheduling with a long delay (10.0 time units)."  The boolean the member
    function returns is not described and is left out. *)
Definition onCommitted (path : string) (pages : Z) (q : CheckpointQueue)
  : CheckpointQueue :=
  let total := accumulatedPages path q + pages in
  let delay :=
    if framesThresholdForCritical <=? total
    then delayForCritical else delayForNonCritical in
  {| accumulated := <[path := total]> (accumulated q);
     requests := requests q ++ [(path, delay)] |}.

Definition commits (path : string) (pages : list Z) (q : CheckpointQueue)
  : CheckpointQueue :=
  fold_left (fun q p => onCommitted path p q) pages q.

Definition sumPages (pages : list Z) : Z := fold_right Z.add 0 pages.

(** ** Vocabulary of the statements below *)

Section Vocabulary.

Context (env : Env).

(** The record [setupAndNotifyError] builds from the handle's error. *)
Definition classified (p : sqlite3 env) (w : World env) (rc : Z) (sql : string)
  : Error :=
  setInfo "SQL" sql
    (setMessage
       (match sqlite3_errmsg env p (db env w) with
        | Some m => m
        | None => EmptyString
        end)
       (setLevel
          (if nonIgnorable (m_codeToBeIgnored env w) rc
           then LevelError else LevelIgnore)
          (setSQLiteCode rc
             (if negb (rc =? SQLITE_MISUSE)
              then Some (sqlite3_extended_errcode env p (db env w))
              else None)
             (m_error env w)))).

(** What [execute] leaves untouched. *)
Definition sameConnection (w w' : World env) : Prop :=
  m_handle env w' = m_handle env w /\
  m_nestedLevel env w' = m_nestedLevel env w /\
  m_codeToBeIgnored env w' = m_codeToBeIgnored env w /\
  m_handleStatements env w' = m_handleStatements env w /\
  m_notification env w' = m_notification env w /\
  next_address env w' = next_address env w.

(** The engine refuses the statement and the code is not covered by the
    ignorable mask: [execute] reports the failure. *)
Definition reportsFailure (p : sqlite3 env) (w : World env) (sql : string)
  : Prop :=
  fst (sqlite3_exec env p sql (db env w)) <> SQLITE_OK /\
  nonIgnorable (m_codeToBeIgnored env w)
    (fst (sqlite3_exec env p sql (db env w))) = true.

(** The name of the savepoint of a depth. *)
Definition savepointName (l : Z) : string :=
  (savepointPrefix +:+ to_string l)%string.

(** The depth counter as an unsigned 32-bit residue. *)
Definition residue (d : Z) : Z := d mod 2 ^ 32.

(** Outside a real transaction the depth is 0. *)
Definition depthFollowsTransaction (p : sqlite3 env) (w : World env) : Prop :=
  sqlite3_get_autocommit env p (db env w) <> 0 -> m_nestedLevel env w = 0.

(** The allocator has not handed out the next address yet. *)
Definition addressesFresh (w : World env) : Prop :=
  lookupStatement (next_address env w) (m_handleStatements env w) = None.

(** The run of a compiled statement ends: once its rows are delivered it
    answers neither [SQLITE_ROW] nor [SQLITE_OK]. *)
Definition runEnds (s : sqlite3_stmt) : Prop :=
  stmt_final s <> SQLITE_ROW /\ stmt_final s <> SQLITE_OK.

(** What the statement member functions leave untouched. *)
Definition sameHandle (w w' : World env) : Prop :=
  m_handle env w' = m_handle env w /\
  m_nestedLevel env w' = m_nestedLevel env w /\
  m_codeToBeIgnored env w' = m_codeToBeIgnored env w /\
  m_notification env w' = m_notification env w /\
  next_address env w' = next_address env w.

(** The engine compiles the statement properly: when it answers
    [SQLITE_OK] it hands back a compiled statement, one whose run ends. *)
Definition compilesProperly (p : sqlite3 env) (e : engine env)
    (statement : Statement) : Prop :=
  forall stmt e',
    sqlite3_prepare_v2 env p (getDescription env statement) e =
      (SQLITE_OK, stmt, e') ->
    exists s, stmt = Some s /\ runEnds s.

(** The pool after [finalizeStatements]: no statement is prepared. *)
Definition finalizedPool (l : list (nat * HandleStatement))
  : list (nat * HandleStatement) :=
  map (fun x => (fst x, {| m_stmt := None |})) l.

(** The engine after the release of every compiled form left in the pool. *)
Definition finalizedDb (l : list (nat * HandleStatement)) (e : engine env)
  : engine env :=
  fold_left
    (fun e x =>
       match m_stmt (snd x) with
       | Some s => sqlite3_finalize env s e
       | None => e
       end) l e.

(** The sink after one report for each statement that was left prepared. *)
Definition leftoverReports (l : list (nat * HandleStatement))
    (sink : list Error) : list Error :=
  fold_left
    (fun sink x =>
       if isPrepared (snd x)
       then fatalError env "Statement is not finalized." sink
       else sink) l sink.

End Vocabulary.

Arguments classified {env}.
Arguments sameConnection {env}.
Arguments reportsFailure {env}.
Arguments depthFollowsTransaction {env}.
Arguments addressesFresh {env}.
Arguments sameHandle {env}.
Arguments compilesProperly {env}.
Arguments finalizedDb {env}.

(** ** A small engine

    One connection, a schema of tables with their columns, a real
    transaction flag and a table of injected faults.  It instantiates [Env]
    and serves to run the handle on concrete inputs. *)

Module Toy.

Record Db : Type := mkDb {
  autocommit : bool;
  tables : list (string * list string);
  errcode : Z;
  (** statements the engine refuses, with the code it answers *)
  refused : list (string * Z);
  (** queries whose run is cut short, with the code that ends it *)
  interrupted : list (string * Z)
}.

Definition set_autocommit (b : bool) (e : Db) : Db :=
  {| autocommit := b; tables := tables e; errcode := errcode e;
     refused := refused e; interrupted := interrupted e |}.

Definition set_errcode (rc : Z) (e : Db) : Db :=
  {| autocommit := autocommit e; tables := tables e; errcode := rc;
     refused := refused e; interrupted := interrupted e |}.

Definition description (s : Statement) : string :=
  match s with
  | StatementBegin_beginImmediate => "BEGIN IMMEDIATE"
  | StatementCommit_commit => "COMMIT"
  | StatementRollback_rollback => "ROLLBACK"
  | StatementRollback_rollbackToSavepoint n => "ROLLBACK TO " +:+ n
  | StatementSavepoint_savepoint n => "SAVEPOINT " +:+ n
  | StatementRelease_release n => "RELEASE " +:+ n
  | StatementSelect_select1_from_limit0 t => "SELECT 1 FROM " +:+ t +:+ " LIMIT 0"
  | StatementPragma_tableInfo s t => "PRAGMA " +:+ s +:+ ".table_info(" +:+ t +:+ ")"
  end%string.

Fixpoint assoc (sql : string) (l : list (string * Z)) : option Z :=
  match l with
  | [] => None
  | (k, v) :: rest => if String.eqb sql k then Some v else assoc sql rest
  end.

Definition exec (_ : unit) (sql : string) (e : Db) : Z * Db :=
  match assoc sql (refused e) with
  | Some rc => (rc, set_errcode rc e)
  | None =>
      if String.eqb sql "BEGIN IMMEDIATE" then
        if autocommit e then (SQLITE_OK, set_errcode SQLITE_OK (set_autocommit false e))
        else (SQLITE_ERROR, set_errcode SQLITE_ERROR e)
      else if String.eqb sql "COMMIT" || String.eqb sql "ROLLBACK" then
        if autocommit e then (SQLITE_ERROR, set_errcode SQLITE_ERROR e)
        else (SQLITE_OK, set_errcode SQLITE_OK (set_autocommit true e))
      else (SQLITE_OK, set_errcode SQLITE_OK e)
  end.

Definition columnRows (columns : list string) : list (list string) :=
  imap (fun i c => [pretty (Z.of_nat i); c]) columns.

Definition query (sql : string) (e : Db) : option (list (list string)) :=
  match find (fun t => String.eqb sql
                (description (StatementSelect_select1_from_limit0 (fst t))))
             (tables e) with
  | Some _ => Some []
  | None =>
      match find (fun t => String.eqb sql
                    (description (StatementPragma_tableInfo "main" (fst t))))
                 (tables e) with
      | Some t => Some (columnRows (snd t))
      | None => if String.prefix "PRAGMA main." sql then Some [] else None
      end
  end.

Definition prepare (_ : unit) (sql : string) (e : Db)
  : Z * option sqlite3_stmt * Db :=
  match assoc sql (refused e) with
  | Some rc => (rc, None, set_errcode rc e)
  | None =>
      match query sql e with
      | Some rows =>
          (SQLITE_OK,
           Some {| stmt_sql := sql; stmt_row := []; stmt_pending := rows;
                   stmt_final := default SQLITE_DONE (assoc sql (interrupted e)) |},
           set_errcode SQLITE_OK e)
      | None => (SQLITE_ERROR, None, set_errcode SQLITE_ERROR e)
      end
  end.

Definition stepped (_ : sqlite3_stmt) (rc : Z) (e : Db) : Db :=
  if (rc =? SQLITE_ROW) || (rc =? SQLITE_DONE) then e else set_errcode rc e.

Definition errmsg (_ : unit) (e : Db) : option string :=
  Some (if Z.eqb (errcode e) SQLITE_OK
        then "not an error"%string else "SQL logic error"%string).

Definition fatal (msg : string) (sink : list Error) : list Error :=
  sink ++ [ {| code := SQLITE_MISUSE; extendedCode := None;
               level := LevelError; message := msg; infos := ∅ |} ].

Definition env : Env :=
  {| sqlite3 := unit;
     engine := Db;
     sqlite3_exec := exec;
     sqlite3_get_autocommit := fun _ e => if autocommit e then 1 else 0;
     sqlite3_errcode := fun _ e => errcode e;
     sqlite3_extended_errcode := fun _ e => errcode e;
     sqlite3_errmsg := errmsg;
     sqlite3_prepare_v2 := prepare;
     sqlite3_stepped := stepped;
     sqlite3_finalize := fun _ e => e;
     sqlite3_close_v2 := fun _ e => set_autocommit true e;
     getDescription := description;
     fatalError := fatal |}.

Definition noError : Error :=
  {| code := SQLITE_OK; extendedCode := None; level := LevelIgnore;
     message := EmptyString; infos := ∅ |}.

Definition schema : list (string * list string) :=
  [("person", ["id"; "name"]); ("pet", ["id"; "owner"; "kind"])]%string.

(** An opened connection at rest on the given engine state. *)
Definition opened (e : Db) : World env :=
  mkWorld env (Some tt) noError 0 SQLITE_OK []
    {| willCheckpointNotifications := ∅ |} e [] O.

Definition idle : Db :=
  {| autocommit := true; tables := schema; errcode := SQLITE_OK;
     refused := []; interrupted := [] |}.

Definition refusing (faults : list (string * Z)) : Db :=
  {| autocommit := true; tables := schema; errcode := SQLITE_OK;
     refused := faults; interrupted := [] |}.

Definition interrupting (faults : list (string * Z)) : Db :=
  {| autocommit := true; tables := schema; errcode := SQLITE_OK;
     refused := []; interrupted := faults |}.

(** Inside a real transaction. *)
Definition inTransaction (faults : list (string * Z)) : Db :=
  {| autocommit := false; tables := schema; errcode := SQLITE_OK;
     refused := faults; interrupted := [] |}.

(** The connection with [markErrorAsIgnorable(-1)] in effect. *)
Definition ignoringAll : World env :=
  set_m_codeToBeIgnored env (-1) (opened idle).

(** The caller has marked [SQLITE_BUSY]; the engine refuses to commit. *)
Definition busyMarked : World env :=
  set_m_codeToBeIgnored env SQLITE_BUSY
    (opened (inTransaction [("COMMIT"%string, SQLITE_ERROR)])).

(** At depth 1 inside a transaction; the engine refuses the release. *)
Definition releaseRefused : World env :=
  set_m_nestedLevel env 1
    (opened (inTransaction [("RELEASE WCDBSavepoint_1"%string, SQLITE_BUSY)])).

(** The same, but the caller has marked [SQLITE_BUSY] as ignorable. *)
Definition releaseRefusedMasked : World env :=
  set_m_codeToBeIgnored env SQLITE_BUSY releaseRefused.

(** At depth 2 inside a transaction, with a statement left prepared. *)
Definition unpaired : World env :=
  mkWorld env (Some tt) noError 2 SQLITE_OK
    [(O, {| m_stmt := Some {| stmt_sql := "SELECT 1"; stmt_row := [];
                              stmt_pending := [["1"%string]];
                              stmt_final := SQLITE_DONE |} |})]
    {| willCheckpointNotifications := ∅ |} (inTransaction []) [] 1%nat.

(** A connection that was closed, or never opened. *)
Definition closed : World env :=
  mkWorld env None noError 0 SQLITE_OK []
    {| willCheckpointNotifications := ∅ |} idle [] O.

End Toy.


(** ** The rest of the connection

    The members of [AbstractHandle.cpp] that open the connection, name its
    file and pass a request straight to the engine.  They need more of the
    engine than [Env] holds, and the path beside the other members. *)

Record EngineMore (env : Env) : Type := mkEngineMore {
  (** [sqlite3_open]: the result code and what is written to [*ppDb] *)
  sqlite3_open : string -> engine env -> Z * option (sqlite3 env) * engine env;
  sqlite3_key : sqlite3 env -> list Byte.byte -> engine env -> Z * engine env;
  sqlite3_last_insert_rowid : sqlite3 env -> engine env -> Z;
  sqlite3_changes : sqlite3 env -> engine env -> Z;
  sqlite3_db_readonly : sqlite3 env -> engine env -> Z;
  sqlite3_interrupt : sqlite3 env -> engine env -> engine env
}.

Arguments sqlite3_open {env}.
Arguments sqlite3_key {env}.
Arguments sqlite3_last_insert_rowid {env}.
Arguments sqlite3_changes {env}.
Arguments sqlite3_db_readonly {env}.
Arguments sqlite3_interrupt {env}.

Section Lifecycle.

Context (env : Env) (more : EngineMore env).

(** [m_path] beside the members kept in [World]. *)
Record Handle : Type := mkHandle {
  m_path : string;
  members : World env
}.

(** A member function that does not touch [m_path]. *)
Definition onMembers {A : Type} (f : M env A) (h : Handle)
  : option (A * Handle) :=
  match f (members h) with
  | Some (a, w) => Some (a, {| m_path := m_path h; members := w |})
  | None => None
  end.

(** The constructor: [m_handle(nullptr)], [m_nestedLevel(0)],
    [m_codeToBeIgnored(SQLITE_OK)], nothing in the pool, no notification.
    The default-constructed error, the engine, the sink and the allocator
    are those of the surroundings. *)
Definition AbstractHandle_new (error0 : Error) (e : engine env)
    (sink : list Error) (next : nat) : Handle :=
  {| m_path := EmptyString;
     members :=
       mkWorld env None error0 0 SQLITE_OK []
         {| willCheckpointNotifications := ∅ |} e sink next |}.


(** [WCTRemedialAssert(!isOpened(), ..., return;)]: on an opened connection
    the violation is reported and the function returns. *)
Definition setPath (path : string) (h : Handle) : Handle :=
  let w := members h in
  match m_handle env w with
  | Some _ =>
      {| m_path := m_path h;
         members :=
           set_notifier env
             (fatalError env "Path can't be changed after opened."
                (notifier env w)) w |}
  | None =>
      {| m_path := path;
         members := set_m_error env (setInfo "Path" path (m_error env w)) w |}
  end.

Definition getPath (h : Handle) : string := m_path h.

Definition getSHMSubfix : string := "-shm".
Definition getWALSubfix : string := "-wal".
Definition getJournalSubfix : string := "-journal".

(** [open], on the members, for the path given.  [error(rc)] is the call
    with the default SQL text, the empty string. *)
Definition open_at (path : string) : M env bool :=
  h ← get env (m_handle env);
  match h with
  | Some _ => mret true
  | None =>
      e ← get env (db env);
      let '(rc, handle, e') := sqlite3_open more path e in
      modify env (fun w => set_m_handle env handle (set_db env e' w)) ;;
      if negb (rc =? SQLITE_OK) then error env rc EmptyString
      else mret true
  end.

Definition open (h : Handle) : option (bool * Handle) :=
  onMembers (open_at (m_path h)) h.

Definition getLastInsertedRowID : M env Z :=
  p ← openedHandle env;
  get env (fun w => sqlite3_last_insert_rowid more p (db env w)).

Definition getChanges : M env Z :=
  p ← openedHandle env;
  get env (fun w => sqlite3_changes more p (db env w)).

Definition isReadonly : M env bool :=
  p ← openedHandle env;
  get env (fun w => sqlite3_db_readonly more p (db env w) =? 1).

Definition interrupt : M env unit :=
  p ← openedHandle env;
  modify env (fun w => set_db env (sqlite3_interrupt more p (db env w)) w).

Definition setCipherKey (data : list Byte.byte) : M env bool :=
  p ← openedHandle env;
  e ← get env (db env);
  let '(rc, e') := sqlite3_key more p data e in
  modify env (set_db env e') ;;
  if rc =? SQLITE_OK then mret true else error env rc EmptyString.

End Lifecycle.

Arguments m_path {env}.
Arguments members {env}.
Arguments mkHandle {env}.

(** ** More vocabulary *)

(** The calls of [beginNestedTransaction] in a sequence. *)
Fixpoint countBegins (cs : list Call) : nat :=
  match cs with
  | [] => O
  | Begin :: cs' => S (countBegins cs')
  | End _ :: cs' => countBegins cs'
  end.

(** The text a row holds in a column, as [sqlite3_column_text] reads it. *)
Definition columnText (index : Z) (row : list string) : string :=
  sqlite3_column_text
    {| stmt_sql := EmptyString; stmt_row := row; stmt_pending := [];
       stmt_final := SQLITE_DONE |} index.

Section MoreVocabulary.

Context (env : Env).

(** Every address of the pool was handed out by the allocator, once. *)
Definition poolWellFormed (w : World env) : Prop :=
  NoDup (map fst (m_handleStatements env w)) /\
  Forall (fun x => (fst x < next_address env w)%nat) (m_handleStatements env w).

(** The records the call has added to the sink. *)
Definition notifiedSince (w w' : World env) (l : list Error) : Prop :=
  notifier env w' = notifier env w ++ l.

End MoreVocabulary.

Arguments poolWellFormed {env}.
Arguments notifiedSince {env}.

(** ** The small engine, continued *)

Module ToyMore.

Definition SQLITE_CANTOPEN : Z := 14.

(** The engine cannot open the empty path; like the real one it hands back
    a connection all the same. *)
Definition openDb (path : string) (e : Toy.Db)
  : Z * option unit * Toy.Db :=
  if String.eqb path EmptyString
  then (SQLITE_CANTOPEN, Some tt, Toy.set_errcode SQLITE_CANTOPEN e)
  else (SQLITE_OK, Some tt, Toy.set_errcode SQLITE_OK e).

(** The engine refuses the empty key. *)
Definition keyDb (p : unit) (key : list Byte.byte) (e : Toy.Db)
  : Z * Toy.Db :=
  match key with
  | [] => (SQLITE_ERROR, Toy.set_errcode SQLITE_ERROR e)
  | _ :: _ => (SQLITE_OK, e)
  end.

Definition more : EngineMore Toy.env :=
  mkEngineMore Toy.env openDb
    keyDb (fun _ _ => 0) (fun _ _ => 0)
    (fun _ _ => 0) (fun _ e => e).

(** A handle just constructed. *)
Definition fresh : Handle Toy.env :=
  AbstractHandle_new Toy.env Toy.noError Toy.idle [] O.

(** A pool of two statements, the second one prepared. *)
Definition pooled : World Toy.env :=
  mkWorld Toy.env (Some tt) Toy.noError 0 SQLITE_OK
    [(O, {| m_stmt := None |});
     (2%nat, {| m_stmt := Some {| stmt_sql := "SELECT 1"; stmt_row := [];
                                  stmt_pending := [];
                                  stmt_final := SQLITE_DONE |} |})]
    {| willCheckpointNotifications := ∅ |} Toy.idle [] 3%nat.

End ToyMore.

Section Connection.
Context (env : Env).


Ltac unfold_monad :=
  cbv beta iota delta
    [mbind mret M_bind M_ret get modify assertionFailure openedHandle
     notify getExtendedErrorCode getErrorMessage getResultCode
     isInTransaction markErrorAsIgnorable markErrorAsUnignorable].

Lemma setupAndNotifyError_eq (w : World env) p rc sql :
  m_handle env w = Some p ->
  setupAndNotifyError env (m_error env w) rc sql w =
  Some (classified p w rc sql,
        set_notifier env (notifier env w ++ [classified p w rc sql]) w).
Proof.
  intros Hp. destruct w; cbn in *; subst.
  unfold setupAndNotifyError, classified. unfold_monad.
  destruct (negb (rc =? SQLITE_MISUSE)); cbn;
    destruct (nonIgnorable m_codeToBeIgnored0 rc);
    destruct (sqlite3_errmsg env p db0); reflexivity.
Qed.

Lemma error_eq (w : World env) p rc sql :
  m_handle env w = Some p ->
  rc <> SQLITE_OK ->
  error env rc sql w =
  Some (if nonIgnorable (m_codeToBeIgnored env w) rc
        then (false,
              set_m_error env (classified p w rc sql)
                (set_notifier env (notifier env w ++ [classified p w rc sql]) w))
        else (true,
              set_notifier env (notifier env w ++ [classified p w rc sql]) w)).
Proof.
  intros Hp Hrc. unfold error.
  destruct (Z.eqb_spec rc SQLITE_OK) as [|_]; [contradiction|].
  unfold_monad. 
  destruct (nonIgnorable (m_codeToBeIgnored env w) rc) eqn:Hn;
    rewrite (setupAndNotifyError_eq w p rc sql Hp); reflexivity.
Qed.

Lemma execute_eq (w : World env) p sql :
  m_handle env w = Some p ->
  execute env sql w =
  let rc := fst (sqlite3_exec env p sql (db env w)) in
  let w1 := set_db env (snd (sqlite3_exec env p sql (db env w))) w in
  if rc =? SQLITE_OK then Some (true, w1) else error env rc sql w1.
Proof.
  intros Hp. unfold execute. unfold_monad. rewrite Hp.
  destruct (sqlite3_exec env p sql (db env w)) as [rc e']. cbn.
  destruct (rc =? SQLITE_OK); reflexivity.
Qed.



Lemma execute_post (w : World env) p sql :
  m_handle env w = Some p ->
  exists b w',
    execute env sql w = Some (b, w') /\
    sameConnection w w' /\
    db env w' = snd (sqlite3_exec env p sql (db env w)) /\
    (b = false <-> reportsFailure p w sql).
Proof.
  intros Hp. rewrite (execute_eq w p sql Hp). cbn zeta.
  unfold reportsFailure.
  destruct (sqlite3_exec env p sql (db env w)) as [rc e']. cbn [fst snd].
  destruct (Z.eqb_spec rc SQLITE_OK) as [Heq|Hne].
  - eexists _, _. split; [reflexivity|]. unfold sameConnection. cbn.
    intuition congruence.
  - rewrite (error_eq _ p rc sql) by (cbn; assumption || exact Hne).
    cbn [m_codeToBeIgnored set_db].
    destruct (nonIgnorable (m_codeToBeIgnored env w) rc);
      eexists _, _; (split; [reflexivity|]); unfold sameConnection; cbn;
      intuition congruence.
Qed.

Ltac use_execute p :=
  match goal with
  | |- context [execute ?e ?sql ?w] =>
      let b := fresh "b" in
      let w' := fresh "w" in
      let Hexec := fresh "Hexec" in
      let Hsame := fresh "Hsame" in
      let Hdb := fresh "Hdb" in
      let Hb := fresh "Hb" in
      let Hopen := fresh "Hopen" in
      assert (Hopen : m_handle e w = Some p)
        by (cbn; unfold sameConnection in *; intuition congruence);
      destruct (execute_post w p sql Hopen)
        as (b & w' & Hexec & Hsame & Hdb & Hb);
      rewrite Hexec; cbv beta iota; cbn in Hsame, Hdb
  end.

Lemma rollbackTransaction_post (w : World env) p :
  m_handle env w = Some p ->
  exists w',
    rollbackTransaction env w = Some (tt, w') /\
    m_handle env w' = Some p /\
    m_nestedLevel env w' = 0 /\
    m_codeToBeIgnored env w' = SQLITE_OK /\
    m_handleStatements env w' = m_handleStatements env w /\
    db env w' =
      snd (sqlite3_exec env p (getDescription env StatementRollback_rollback)
             (db env w)).
Proof.
  intros Hp. unfold rollbackTransaction. unfold_monad.
  use_execute p. eexists. split; [reflexivity|].
  unfold sameConnection in *. cbn in *. intuition congruence.
Qed.

Lemma commitOrRollbackTransaction_post (w : World env) p :
  m_handle env w = Some p ->
  exists b w',
    commitOrRollbackTransaction env w = Some (b, w') /\
    m_handle env w' = Some p /\
    m_nestedLevel env w' = 0 /\
    m_handleStatements env w' = m_handleStatements env w /\
    (b = false <->
     reportsFailure p w (getDescription env StatementCommit_commit)) /\
    (b = false ->
     m_codeToBeIgnored env w' = SQLITE_OK /\
     db env w' =
       snd (sqlite3_exec env p (getDescription env StatementRollback_rollback)
              (snd (sqlite3_exec env p
                      (getDescription env StatementCommit_commit) (db env w))))) /\
    (b = true ->
     m_codeToBeIgnored env w' = m_codeToBeIgnored env w /\
     db env w' =
       snd (sqlite3_exec env p (getDescription env StatementCommit_commit)
              (db env w))).
Proof.
  intros Hp. unfold commitOrRollbackTransaction. unfold_monad.
  use_execute p. destruct b; cbn.
  - eexists _, _. split; [reflexivity|].
    unfold sameConnection, reportsFailure in *. cbn in *.
    intuition congruence.
  - use_execute p. eexists _, _. split; [reflexivity|].
    unfold sameConnection, reportsFailure in *. cbn in *.
    intuition congruence.
Qed.


Lemma beginNestedTransaction_post (w : World env) p :
  m_handle env w = Some p ->
  exists b w',
    beginNestedTransaction env w = Some (b, w') /\
    m_handle env w' = Some p /\
    m_codeToBeIgnored env w' = m_codeToBeIgnored env w /\
    m_handleStatements env w' = m_handleStatements env w /\
    (sqlite3_get_autocommit env p (db env w) <> 0 ->
     m_nestedLevel env w' = m_nestedLevel env w /\
     db env w' =
       snd (sqlite3_exec env p
              (getDescription env StatementBegin_beginImmediate) (db env w))) /\
    (sqlite3_get_autocommit env p (db env w) = 0 ->
     m_nestedLevel env w' = wrap_int (m_nestedLevel env w + 1) /\
     db env w' =
       snd (sqlite3_exec env p
              (getDescription env
                 (StatementSavepoint_savepoint
                    (savepointName (wrap_int (m_nestedLevel env w + 1)))))
              (db env w))).
Proof.
  intros Hp. unfold beginNestedTransaction, beginTransaction,
    preIncrementNestedLevel. unfold_monad. rewrite Hp.
  destruct (Z.eqb_spec (sqlite3_get_autocommit env p (db env w)) 0)
    as [Hin|Hout]; cbn [negb].
  - use_execute p. eexists _, _. split; [reflexivity|].
    unfold sameConnection, savepointName in *. cbn in *.
    intuition congruence.
  - use_execute p. eexists _, _. split; [reflexivity|].
    unfold sameConnection in *. intuition congruence.
Qed.

Lemma commitOrRollbackNestedTransaction_top (w : World env) :
  m_nestedLevel env w = 0 ->
  commitOrRollbackNestedTransaction env w = commitOrRollbackTransaction env w.
Proof.
  intros Hl. unfold commitOrRollbackNestedTransaction. unfold_monad.
  rewrite Hl. reflexivity.
Qed.

Lemma rollbackNestedTransaction_top (w : World env) :
  m_nestedLevel env w = 0 ->
  rollbackNestedTransaction env w = rollbackTransaction env w.
Proof.
  intros Hl. unfold rollbackNestedTransaction. unfold_monad.
  rewrite Hl. reflexivity.
Qed.

Lemma commitOrRollbackNestedTransaction_post (w : World env) p :
  m_handle env w = Some p ->
  m_nestedLevel env w <> 0 ->
  let release :=
    getDescription env
      (StatementRelease_release (savepointName (m_nestedLevel env w))) in
  let rollbackTo :=
    getDescription env
      (StatementRollback_rollbackToSavepoint
         (savepointName (m_nestedLevel env w))) in
  exists b w',
    commitOrRollbackNestedTransaction env w = Some (b, w') /\
    m_handle env w' = Some p /\
    m_nestedLevel env w' = wrap_int (m_nestedLevel env w - 1) /\
    m_handleStatements env w' = m_handleStatements env w /\
    (b = false <-> reportsFailure p w release) /\
    (b = false ->
     m_codeToBeIgnored env w' = SQLITE_OK /\
     db env w' =
       snd (sqlite3_exec env p rollbackTo
              (snd (sqlite3_exec env p release (db env w))))) /\
    (b = true ->
     m_codeToBeIgnored env w' = m_codeToBeIgnored env w /\
     db env w' = snd (sqlite3_exec env p release (db env w))).
Proof.
  intros Hp Hl. unfold commitOrRollbackNestedTransaction,
    postDecrementNestedLevel. unfold_monad.
  destruct (Z.eqb_spec (m_nestedLevel env w) 0) as [|_]; [contradiction|].
  fold (savepointName (m_nestedLevel env w)).
  use_execute p. destruct b; cbn.
  - eexists _, _. split; [reflexivity|].
    unfold sameConnection, reportsFailure in *. cbn in *.
    intuition congruence.
  - use_execute p. eexists _, _. split; [reflexivity|].
    unfold sameConnection, reportsFailure in *. cbn in *.
    intuition congruence.
Qed.

Lemma rollbackNestedTransaction_post (w : World env) p :
  m_handle env w = Some p ->
  m_nestedLevel env w <> 0 ->
  exists w',
    rollbackNestedTransaction env w = Some (tt, w') /\
    m_handle env w' = Some p /\
    m_nestedLevel env w' = wrap_int (m_nestedLevel env w - 1) /\
    m_codeToBeIgnored env w' = SQLITE_OK /\
    m_handleStatements env w' = m_handleStatements env w /\
    db env w' =
      snd (sqlite3_exec env p
             (getDescription env
                (StatementRollback_rollbackToSavepoint
                   (savepointName (m_nestedLevel env w))))
             (db env w)).
Proof.
  intros Hp Hl. unfold rollbackNestedTransaction, postDecrementNestedLevel.
  unfold_monad.
  destruct (Z.eqb_spec (m_nestedLevel env w) 0) as [|_]; [contradiction|].
  fold (savepointName (m_nestedLevel env w)).
  use_execute p. eexists. split; [reflexivity|].
  unfold sameConnection in *. cbn in *. intuition congruence.
Qed.

(** *** Arithmetic of the depth counter *)


Ltac int_arith :=
  unfold residue, wrap_int, in_int, INT_MIN, INT_MAX in *;
  change (2 ^ 31) with 2147483648 in *;
  change (2 ^ 32) with 4294967296 in *;
  Z.to_euclidean_division_equations; lia.

Lemma wrap_int_in_int z : in_int (wrap_int z).
Proof. int_arith. Qed.

Lemma wrap_int_small z : in_int z -> wrap_int z = z.
Proof. intros H. int_arith. Qed.

Lemma residue_zero d : in_int d -> residue d = 0 -> d = 0.
Proof. intros H1 H2. int_arith. Qed.

Lemma residue_nonneg d : 0 <= residue d.
Proof. int_arith. Qed.

Lemma residue_increment d : residue (wrap_int (d + 1)) <= residue d + 1.
Proof. int_arith. Qed.

Lemma residue_decrement d :
  in_int d -> d <> 0 -> residue (wrap_int (d - 1)) = residue d - 1.
Proof. intros H1 H2. int_arith. Qed.

(** *** Sequences of calls *)

Lemma calls_app (cs1 cs2 : list Call) (w : World env) :
  calls env (cs1 ++ cs2) w =
  match calls env cs1 w with
  | Some (_, w') => calls env cs2 w'
  | None => None
  end.
Proof.
  revert w. induction cs1 as [|c cs1 IH]; intros w; cbn.
  - reflexivity.
  - unfold_monad. destruct (call env c w) as [[[] w1]|]; [apply IH|reflexivity].
Qed.

Lemma call_Begin_post (w : World env) p :
  m_handle env w = Some p ->
  in_int (m_nestedLevel env w) ->
  exists w',
    call env Begin w = Some (tt, w') /\
    m_handle env w' = Some p /\
    in_int (m_nestedLevel env w') /\
    residue (m_nestedLevel env w') <= residue (m_nestedLevel env w) + 1.
Proof.
  intros Hp Hi. cbn. unfold_monad.
  destruct (beginNestedTransaction_post w p Hp)
    as (b & w' & Hrun & Hh & _ & _ & Hout & Hin).
  rewrite Hrun. eexists. split; [reflexivity|]. split; [exact Hh|].
  destruct (Z.eq_dec (sqlite3_get_autocommit env p (db env w)) 0) as [H0|H0].
  - destruct (Hin H0) as [-> _]. split; [apply wrap_int_in_int|].
    apply residue_increment.
  - destruct (Hout H0) as [-> _]. split; [exact Hi|lia].
Qed.

Lemma endCall_post (c : EndCall) (w : World env) p :
  m_handle env w = Some p ->
  exists w',
    endCall env c w = Some (tt, w') /\
    m_handle env w' = Some p /\
    m_nestedLevel env w' =
      (if m_nestedLevel env w =? 0 then 0
       else wrap_int (m_nestedLevel env w - 1)).
Proof.
  intros Hp.
  destruct (Z.eqb_spec (m_nestedLevel env w) 0) as [H0|H0]; destruct c; cbn.
  - unfold_monad. rewrite (commitOrRollbackNestedTransaction_top w H0).
    destruct (commitOrRollbackTransaction_post w p Hp)
      as (b & w' & Hrun & Hh & Hl & _).
    rewrite Hrun. eauto.
  - rewrite (rollbackNestedTransaction_top w H0).
    destruct (rollbackTransaction_post w p Hp) as (w' & Hrun & Hh & Hl & _).
    eauto.
  - unfold_monad.
    destruct (commitOrRollbackNestedTransaction_post w p Hp H0)
      as (b & w' & Hrun & Hh & Hl & _).
    rewrite Hrun. eauto.
  - destruct (rollbackNestedTransaction_post w p Hp H0)
      as (w' & Hrun & Hh & Hl & _).
    eauto.
Qed.

Lemma begins_post (N : nat) (w : World env) p :
  m_handle env w = Some p ->
  in_int (m_nestedLevel env w) ->
  exists w',
    calls env (repeat Begin N) w = Some (tt, w') /\
    m_handle env w' = Some p /\
    in_int (m_nestedLevel env w') /\
    residue (m_nestedLevel env w') <=
      residue (m_nestedLevel env w) + Z.of_nat N.
Proof.
  revert w. induction N as [|N IH]; intros w Hp Hi.
  - exists w. cbn. repeat split; try assumption; try apply Hi. lia.
  - destruct (call_Begin_post w p Hp Hi) as (w1 & Hrun & Hp1 & Hi1 & Hr1).
    destruct (IH w1 Hp1 Hi1) as (w2 & Hrun2 & Hp2 & Hi2 & Hr2).
    exists w2. cbn [repeat calls]. unfold_monad. rewrite Hrun.
    repeat split; try assumption; try apply Hi2. lia.
Qed.

Lemma ends_post (ends : list EndCall) (w : World env) p :
  m_handle env w = Some p ->
  in_int (m_nestedLevel env w) ->
  residue (m_nestedLevel env w) <= Z.of_nat (length ends) ->
  exists w',
    calls env (map End ends) w = Some (tt, w') /\
    m_handle env w' = Some p /\
    m_nestedLevel env w' = 0.
Proof.
  revert w. induction ends as [|c ends IH]; intros w Hp Hi Hr.
  - exists w. cbn in *. repeat split; try assumption.
    apply residue_zero; [exact Hi|]. pose proof (residue_nonneg (m_nestedLevel env w)). lia.
  - destruct (endCall_post c w p Hp) as (w1 & Hrun & Hp1 & Hl1).
    assert (Hi1 : in_int (m_nestedLevel env w1)).
    { rewrite Hl1. destruct (_ =? 0); [int_arith|apply wrap_int_in_int]. }
    assert (Hr1 : residue (m_nestedLevel env w1) <= Z.of_nat (length ends)).
    { rewrite Hl1. destruct (Z.eqb_spec (m_nestedLevel env w) 0) as [H0|H0].
      - unfold residue. rewrite Z.mod_0_l by lia. lia.
      - rewrite residue_decrement by assumption. cbn [length] in Hr. lia. }
    destruct (IH w1 Hp1 Hi1 Hr1) as (w2 & Hrun2 & Hp2 & Hl2).
    exists w2. cbn [map calls call]. unfold_monad. rewrite Hrun.
    repeat split; assumption.
Qed.

(** *** Depth and the engine's transaction flag *)


Lemma call_keeps_depthFollowsTransaction (c : Call) (w : World env) p :
  SavepointsKeepTransaction env ->
  m_handle env w = Some p ->
  depthFollowsTransaction p w ->
  exists w',
    call env c w = Some (tt, w') /\
    m_handle env w' = Some p /\
    depthFollowsTransaction p w'.
Proof.
  intros Hlaw Hp Hinv. unfold depthFollowsTransaction in *.
  destruct c as [|c].
  - cbn. unfold_monad.
    destruct (beginNestedTransaction_post w p Hp)
      as (b & w' & Hrun & Hh & _ & _ & Hout & Hin).
    rewrite Hrun. eexists. split; [reflexivity|]. split; [exact Hh|].
    destruct (Z.eq_dec (sqlite3_get_autocommit env p (db env w)) 0) as [H0|H0].
    + destruct (Hin H0) as [_ ->]. intros Hno. exfalso. apply Hno.
      apply Hlaw; [reflexivity|exact H0].
    + destruct (Hout H0) as [-> _]. intros _. exact (Hinv H0).
  - destruct (Z.eq_dec (m_nestedLevel env w) 0) as [H0|H0].
    + destruct (endCall_post c w p Hp) as (w' & Hrun & Hh & Hl).
      rewrite H0 in Hl. cbn in Hl. eauto.
    + assert (Hin : sqlite3_get_autocommit env p (db env w) = 0).
      { destruct (Z.eq_dec (sqlite3_get_autocommit env p (db env w)) 0);
          [assumption|]. exfalso. auto. }
      destruct c; cbn.
      * unfold_monad.
        destruct (commitOrRollbackNestedTransaction_post w p Hp H0)
          as (b & w' & Hrun & Hh & _ & _ & _ & Hfail & Hok).
        rewrite Hrun. eexists. split; [reflexivity|]. split; [exact Hh|].
        intros Hno. exfalso. apply Hno. destruct b.
        -- destruct (Hok eq_refl) as [_ ->]. apply Hlaw; [reflexivity|exact Hin].
        -- destruct (Hfail eq_refl) as [_ ->].
           apply Hlaw; [reflexivity|]. apply Hlaw; [reflexivity|exact Hin].
      * destruct (rollbackNestedTransaction_post w p Hp H0)
          as (w' & Hrun & Hh & _ & _ & _ & Hdb).
        eexists. split; [exact Hrun|]. split; [exact Hh|].
        intros Hno. exfalso. apply Hno. rewrite Hdb.
        apply Hlaw; [reflexivity|exact Hin].
Qed.

Lemma calls_keep_depthFollowsTransaction (cs : list Call) (w : World env) p :
  SavepointsKeepTransaction env ->
  m_handle env w = Some p ->
  depthFollowsTransaction p w ->
  exists w',
    calls env cs w = Some (tt, w') /\
    m_handle env w' = Some p /\
    depthFollowsTransaction p w'.
Proof.
  intros Hlaw. revert w. induction cs as [|c cs IH]; intros w Hp Hinv.
  - exists w. cbn. auto.
  - destruct (call_keeps_depthFollowsTransaction c w p Hlaw Hp Hinv)
      as (w1 & Hrun & Hp1 & Hinv1).
    destruct (IH w1 Hp1 Hinv1) as (w2 & Hrun2 & Hp2 & Hinv2).
    exists w2. cbn [calls]. unfold_monad. rewrite Hrun. auto.
Qed.

Lemma isInTransaction_eq (w : World env) p :
  m_handle env w = Some p ->
  isInTransaction env w =
  Some (sqlite3_get_autocommit env p (db env w) =? 0, w).
Proof. intros Hp. unfold_monad. rewrite Hp. reflexivity. Qed.

(** C1. Starting at depth 0 outside any transaction, N calls of
    [beginNestedTransaction] followed by N calls, each one of
    [commitOrRollbackNestedTransaction] or [rollbackNestedTransaction],
    all return and leave the depth counter at 0.  Moreover, on an engine
    whose savepoint statements keep the real transaction open, at every
    point of such a sequence [isInTransaction()] answers false only when
    the depth counter is 0. *)
Theorem nested_calls_return_depth_to_zero
    (w : World env) (N : nat) (ends : list EndCall) :
  isOpened env w = Some (true, w) ->
  m_nestedLevel env w = 0 ->
  isInTransaction env w = Some (false, w) ->
  length ends = N ->
  (exists w',
     calls env (pairedCalls N ends) w = Some (tt, w') /\
     m_nestedLevel env w' = 0) /\
  (SavepointsKeepTransaction env ->
   forall pre suf : list Call,
     pairedCalls N ends = pre ++ suf ->
     exists w',
       calls env pre w = Some (tt, w') /\
       forall w'',
         isInTransaction env w' = Some (false, w'') ->
         m_nestedLevel env w' = 0).
Proof.
  intros Hopen Hl Hout Hlen.
  assert (Hp : exists p, m_handle env w = Some p).
  { unfold isOpened, get in Hopen. injection Hopen as Hopen.
    apply bool_decide_eq_true in Hopen.
    destruct (m_handle env w) as [p|]; [eauto|contradiction]. }
  destruct Hp as [p Hp].
  assert (Hi : in_int (m_nestedLevel env w)) by (rewrite Hl; int_arith).
  split.
  - destruct (begins_post N w p Hp Hi) as (w1 & Hrun1 & Hp1 & Hi1 & Hr1).
    assert (Hr : residue (m_nestedLevel env w1) <= Z.of_nat (length ends)).
    { rewrite Hl in Hr1. unfold residue in Hr1 at 2.
      rewrite Z.mod_0_l in Hr1 by lia. lia. }
    destruct (ends_post ends w1 p Hp1 Hi1 Hr) as (w2 & Hrun2 & _ & Hl2).
    exists w2. unfold pairedCalls. rewrite calls_app, Hrun1. auto.
  - intros Hlaw pre suf _.
    assert (Hinv : depthFollowsTransaction p w) by (intros _; exact Hl).
    destruct (calls_keep_depthFollowsTransaction pre w p Hlaw Hp Hinv)
      as (w' & Hrun & Hp' & Hinv').
    exists w'. split; [exact Hrun|]. intros w'' Hin.
    rewrite (isInTransaction_eq w' p Hp') in Hin. injection Hin as Hin _.
    apply Hinv'. intros H0. rewrite H0 in Hin. discriminate.
Qed.

(** C2, amended.  At depth > 0, when the engine refuses to release the
    current savepoint, [commitOrRollbackNestedTransaction] decrements the
    depth counter by exactly one.  If no code is marked ignorable, or the
    marked code is non-negative and differs from the code of the refusal,
    it rolls back to that savepoint and returns false; if the marked code
    is the code of the refusal, or is negative, the refusal is ignored: it
    returns true and no rollback to the savepoint is sent. *)
Theorem refused_release_rolls_back_unless_masked (w : World env) p :
  let release :=
    getDescription env
      (StatementRelease_release (savepointName (m_nestedLevel env w))) in
  let rollbackTo :=
    getDescription env
      (StatementRollback_rollbackToSavepoint
         (savepointName (m_nestedLevel env w))) in
  let rc := fst (sqlite3_exec env p release (db env w)) in
  m_handle env w = Some p ->
  0 < m_nestedLevel env w <= INT_MAX ->
  rc <> SQLITE_OK ->
  exists b w',
    commitOrRollbackNestedTransaction env w = Some (b, w') /\
    m_nestedLevel env w' = m_nestedLevel env w - 1 /\
    (m_codeToBeIgnored env w = SQLITE_OK \/
     (0 <= m_codeToBeIgnored env w /\ rc <> m_codeToBeIgnored env w) ->
     b = false /\
     db env w' =
       snd (sqlite3_exec env p rollbackTo
              (snd (sqlite3_exec env p release (db env w))))) /\
    (rc = m_codeToBeIgnored env w \/ m_codeToBeIgnored env w < 0 ->
     b = true /\
     db env w' = snd (sqlite3_exec env p release (db env w))).
Proof.
  intros release rollbackTo rc Hp Hl Hrc.
  assert (H0 : m_nestedLevel env w <> 0) by lia.
  destruct (commitOrRollbackNestedTransaction_post w p Hp H0)
    as (b & w' & Hrun & _ & Hlevel & _ & Hb & Hfalse & Htrue).
  fold release in Hb, Htrue, Hfalse. fold rollbackTo in Hfalse.
  exists b, w'. split; [exact Hrun|]. split.
  { rewrite Hlevel. apply wrap_int_small. int_arith. }
  unfold reportsFailure in Hb. fold rc in Hb. unfold nonIgnorable in Hb.
  split.
  - intros Hhard.
    assert (Hb' : b = false).
    { apply Hb. split; [exact Hrc|].
      apply andb_true_intro. split.
      - apply Z.leb_le. unfold SQLITE_OK in *. lia.
      - apply negb_true_iff, Z.eqb_neq. unfold SQLITE_OK in *. lia. }
    split; [exact Hb'|]. apply Hfalse. exact Hb'.
  - intros Hsoft.
    assert (Hb' : b = true).
    { destruct b; [reflexivity|]. exfalso.
      destruct Hb as [Hb _]. destruct (Hb eq_refl) as [_ Hmask].
      apply andb_prop in Hmask as [Hge Hne].
      apply Z.leb_le in Hge. apply negb_true_iff, Z.eqb_neq in Hne. lia. }
    split; [exact Hb'|]. apply Htrue. exact Hb'.
Qed.

(** C3, amended.  For a failing code [rc]: if no code is marked ignorable, or
    the marked code is non-negative and differs from [rc], [error] notifies
    an Error-severity record, keeps it as the handle's error and returns
    false; if [rc] is the marked code, or the marked code is negative,
    [error] notifies an Ignore-severity record, leaves the handle's error
    as it was and returns true. *)
Theorem error_classification (w : World env) p (rc : Z) (sql : string) :
  m_handle env w = Some p ->
  rc <> SQLITE_OK ->
  (m_codeToBeIgnored env w = SQLITE_OK \/
   (0 <= m_codeToBeIgnored env w /\ rc <> m_codeToBeIgnored env w) ->
   exists e w',
     error env rc sql w = Some (false, w') /\
     notifier env w' = notifier env w ++ [e] /\
     code e = rc /\ level e = LevelError /\ m_error env w' = e) /\
  (rc = m_codeToBeIgnored env w \/ m_codeToBeIgnored env w < 0 ->
   exists e w',
     error env rc sql w = Some (true, w') /\
     notifier env w' = notifier env w ++ [e] /\
     code e = rc /\ level e = LevelIgnore /\ m_error env w' = m_error env w).
Proof.
  intros Hp Hrc. rewrite (error_eq w p rc sql Hp Hrc).
  split; intros Hmask.
  - assert (Hn : nonIgnorable (m_codeToBeIgnored env w) rc = true).
    { unfold nonIgnorable, SQLITE_OK in *.
      apply andb_true_iff. rewrite Z.leb_le, negb_true_iff, Z.eqb_neq. lia. }
    unfold classified. rewrite Hn. eexists _, _.
    split; [reflexivity|]. cbn. auto.
  - assert (Hn : nonIgnorable (m_codeToBeIgnored env w) rc = false).
    { unfold nonIgnorable. apply andb_false_iff.
      rewrite Z.leb_gt, negb_false_iff, Z.eqb_eq. lia. }
    unfold classified. rewrite Hn. eexists _, _.
    split; [reflexivity|]. cbn. auto.
Qed.

(** C9. Once a negative code has been marked ignorable, [error] returns
    true for every failing code, and the record it notifies has Ignore
    severity. *)
Theorem negative_mask_ignores_every_code
    (w : World env) p (codeToBeIgnored rc : Z) (sql : string) :
  m_handle env w = Some p ->
  codeToBeIgnored < 0 ->
  rc <> SQLITE_OK ->
  exists e w',
    (markErrorAsIgnorable env codeToBeIgnored ;; error env rc sql) w =
      Some (true, w') /\
    notifier env w' = notifier env w ++ [e] /\
    code e = rc /\ level e = LevelIgnore.
Proof.
  intros Hp Hneg Hrc. unfold_monad.
  rewrite (error_eq _ p rc sql) by (cbn; assumption).
  assert (Hn : nonIgnorable codeToBeIgnored rc = false).
  { unfold nonIgnorable. apply andb_false_iff. left. apply Z.leb_gt. lia. }
  unfold classified. cbn. rewrite Hn. eexists _, _.
  split; [reflexivity|]. cbn. auto.
Qed.

(** C5, amended.  When [commitOrRollbackTransaction] or
    [commitOrRollbackNestedTransaction] takes its failure path (it returns
    false), no code is marked ignorable after the call ([SQLITE_OK]),
    whatever code the caller had marked before. *)
Theorem failure_path_leaves_mask_unset (w : World env) p :
  m_handle env w = Some p ->
  (exists b w',
     commitOrRollbackTransaction env w = Some (b, w') /\
     (b = false <->
      reportsFailure p w (getDescription env StatementCommit_commit)) /\
     (b = false -> m_codeToBeIgnored env w' = SQLITE_OK)) /\
  (exists b w',
     commitOrRollbackNestedTransaction env w = Some (b, w') /\
     (b = false -> m_codeToBeIgnored env w' = SQLITE_OK)).
Proof.
  intros Hp. split.
  - destruct (commitOrRollbackTransaction_post w p Hp)
      as (b & w' & Hrun & _ & _ & _ & Hb & Hfail & _).
    exists b, w'. split; [exact Hrun|]. split; [exact Hb|].
    intros ->. apply Hfail. reflexivity.
  - destruct (Z.eq_dec (m_nestedLevel env w) 0) as [H0|H0].
    + rewrite (commitOrRollbackNestedTransaction_top w H0).
      destruct (commitOrRollbackTransaction_post w p Hp)
        as (b & w' & Hrun & _ & _ & _ & _ & Hfail & _).
      exists b, w'. split; [exact Hrun|]. intros ->. apply Hfail. reflexivity.
    + destruct (commitOrRollbackNestedTransaction_post w p Hp H0)
        as (b & w' & Hrun & _ & _ & _ & _ & Hfail & _).
      exists b, w'. split; [exact Hrun|]. intros ->. apply Hfail. reflexivity.
Qed.
End Connection.

Section StatementPool.
Context (env : Env).


Lemma lookupStatement_fresh a hs l :
  lookupStatement a l = None ->
  lookupStatement a (l ++ [(a, hs)]) = Some hs.
Proof.
  induction l as [|[b hs0] l IH]; cbn; intros H.
  - rewrite Nat.eqb_refl. reflexivity.
  - destruct (Nat.eqb a b); [discriminate|auto].
Qed.

Lemma storeStatement_fresh a hs hs' l :
  lookupStatement a l = None ->
  storeStatement a hs' (l ++ [(a, hs)]) = l ++ [(a, hs')].
Proof.
  induction l as [|[b hs0] l IH]; cbn; intros H.
  - rewrite Nat.eqb_refl. reflexivity.
  - destruct (Nat.eqb a b); [discriminate|]. rewrite IH by assumption.
    reflexivity.
Qed.

Lemma eraseStatement_fresh a hs l :
  lookupStatement a l = None ->
  eraseStatement a (l ++ [(a, hs)]) = l.
Proof.
  induction l as [|[b hs0] l IH]; cbn; intros H.
  - rewrite Nat.eqb_refl. reflexivity.
  - destruct (Nat.eqb a b); [discriminate|]. rewrite IH by assumption.
    reflexivity.
Qed.

(** A member call through the pointer to the statement taken last. *)
Lemma viaPointer_last {A : Type} (w w' : World env) l a hs hs' (r : A)
    (f : HandleStatement -> M env (A * HandleStatement)) :
  m_handleStatements env w = l ++ [(a, hs)] ->
  lookupStatement a l = None ->
  f hs w = Some ((r, hs'), w') ->
  m_handleStatements env w' = m_handleStatements env w ->
  viaPointer env a f w =
  Some (r, set_m_handleStatements env (l ++ [(a, hs')]) w').
Proof.
  intros Hpool Hfresh Hf Hsame. unfold viaPointer.
  cbv beta iota delta [mbind mret M_bind M_ret get modify].
  rewrite Hpool, (lookupStatement_fresh a hs l Hfresh), Hf.
  cbv beta iota. rewrite Hsame, Hpool.
  rewrite (storeStatement_fresh a hs hs' l Hfresh). reflexivity.
Qed.


#[local] Arguments error : simpl never.
#[local] Arguments execute : simpl never.
#[local] Arguments rollbackTransaction : simpl never.

Ltac unfold_ops :=
  cbv beta iota delta
    [mbind mret M_bind M_ret get modify assertionFailure openedHandle
     notify getExtendedErrorCode getErrorMessage getResultCode
     isInTransaction markErrorAsIgnorable markErrorAsUnignorable
     getStatement returnStatement viaPointer
     HandleStatement_prepare HandleStatement_step HandleStatement_step_done
     HandleStatement_finalize HandleStatement_getText].

(** C4. When the engine reports the table absent, [tableExists] returns
    (true, false), the handle's error is left as it was and every record it
    notifies has Ignore severity; when the engine reports the table present,
    [tableExists] returns (true, true). *)
Theorem tableExists_reports_presence (w : World env) p (table : string) :
  m_handle env w = Some p ->
  addressesFresh w ->
  (probeReportsAbsent env p (db env w) table ->
   exists w',
     tableExists env table w = Some ((true, false), w') /\
     m_error env w' = m_error env w /\
     exists e, notifier env w' = notifier env w ++ [e] /\
               level e = LevelIgnore) /\
  (probeReportsPresent env p (db env w) table ->
   exists w',
     tableExists env table w = Some ((true, true), w') /\
     notifier env w' = notifier env w).
Proof.
  intros Hp Hfresh. unfold addressesFresh in Hfresh.
  destruct w as [h err lvl mask pool ntf e sink next]. cbn in Hp, Hfresh.
  subst h. unfold probeReportsAbsent, probeReportsPresent.
  unfold tableExists. unfold_ops. cbn.
  rewrite (lookupStatement_fresh next _ pool Hfresh). cbn.
  destruct (sqlite3_prepare_v2 env p
              (getDescription env (StatementSelect_select1_from_limit0 table)) e)
    as [[rc stmt] e'].
  split.
  - intros [-> Herr]. cbn.
    rewrite (error_eq env _ p SQLITE_ERROR) by (reflexivity || discriminate).
    cbn.
    rewrite (storeStatement_fresh next _ _ pool Hfresh).
    rewrite (eraseStatement_fresh next _ pool Hfresh).
    rewrite Herr. cbn. eexists. split; [reflexivity|]. cbn.
    split; [reflexivity|]. eexists. split; reflexivity.
  - intros [-> (s & -> & Hstep)]. cbn.
    rewrite (storeStatement_fresh next _ _ pool Hfresh).
    rewrite (lookupStatement_fresh next _ pool Hfresh). cbn.
    destruct (sqlite3_step s) as [rc s']. cbn in Hstep.
    assert (Hok : (rc =? SQLITE_ROW) || (rc =? SQLITE_DONE) = true).
    { destruct Hstep as [-> | ->]; reflexivity. }
    rewrite Hok. cbn.
    rewrite (storeStatement_fresh next _ _ pool Hfresh).
    rewrite (lookupStatement_fresh next _ pool Hfresh). cbn.
    rewrite (storeStatement_fresh next _ _ pool Hfresh).
    rewrite (eraseStatement_fresh next _ pool Hfresh).
    eexists. split; reflexivity.
Qed.



Lemma error_sameHandle (w : World env) p rc sql :
  m_handle env w = Some p ->
  rc <> SQLITE_OK ->
  exists b w',
    error env rc sql w = Some (b, w') /\
    sameHandle w w' /\
    m_handleStatements env w' = m_handleStatements env w /\
    db env w' = db env w.
Proof.
  intros Hp Hrc. rewrite (error_eq env w p rc sql Hp Hrc).
  destruct (nonIgnorable _ rc); eexists _, _;
    (split; [reflexivity|]); unfold sameHandle; cbn; auto 10.
Qed.

Lemma getValues_loop_post (turns : nat) :
  forall (w : World env) p l a s index values,
    m_handle env w = Some p ->
    m_handleStatements env w = l ++ [(a, {| m_stmt := Some s |})] ->
    lookupStatement a l = None ->
    runEnds s ->
    (length (stmt_pending s) < turns)%nat ->
    exists done values' s' w',
      getValues_loop env turns a index values w =
        Some ((done, values'), w') /\
      sameHandle w w' /\
      m_handleStatements env w' = l ++ [(a, {| m_stmt := Some s' |})].
Proof.
  induction turns as [|turns IH]; intros w p l a s index values
    Hp Hpool Hfresh Hends Hlen; [lia|].
  cbn [getValues_loop]. unfold_ops.
  rewrite Hpool, (lookupStatement_fresh a _ l Hfresh). cbn [m_stmt].
  unfold sqlite3_step. destruct (stmt_pending s) as [|r rest] eqn:Hrows.
  - (* the rows are exhausted: the run ends *)
    destruct Hends as [Hrow Hok].
    destruct (Z.eqb_spec (stmt_final s) SQLITE_ROW) as [|_]; [contradiction|].
    destruct (Z.eqb_spec (stmt_final s) SQLITE_DONE) as [Hdone|Hdone]; cbn.
    + rewrite Hpool, (storeStatement_fresh a _ _ l Hfresh).
      eexists _, _, _, _. split; [reflexivity|].
      unfold sameHandle. cbn. auto 10.
    + destruct (error_sameHandle
                  (set_db env (sqlite3_stepped env s (stmt_final s) (db env w)) w)
                  p (stmt_final s) (stmt_sql s) Hp Hok)
        as (b & w1 & Herr & Hsame & Hpool1 & _).
      rewrite Herr. cbn. rewrite Hpool1. cbn. rewrite Hpool.
      rewrite (storeStatement_fresh a _ _ l Hfresh).
      eexists _, _, _, _. split; [reflexivity|].
      unfold sameHandle in *. cbn in *. intuition congruence.
  - (* a row *)
    cbn. rewrite Hpool, (storeStatement_fresh a _ _ l Hfresh).
    rewrite (lookupStatement_fresh a _ l Hfresh). cbn.
    rewrite (storeStatement_fresh a _ _ l Hfresh).
    match goal with
    | |- context [getValues_loop env turns a index ?v ?w1] =>
        destruct (IH w1 p l a
                    {| stmt_sql := stmt_sql s; stmt_row := r;
                       stmt_pending := rest; stmt_final := stmt_final s |}
                    index v)
          as (done & values' & s' & w' & Hrun & Hsame & Hpool')
    end; try assumption; try reflexivity.
    + cbn in Hlen |- *. lia.
    + rewrite Hrun. eexists _, _, _, _. split; [reflexivity|].
      split; [|exact Hpool'].
      unfold sameHandle in *. cbn in *. intuition congruence.
Qed.

#[local] Arguments getValues_loop : simpl never.


Lemma bind_Some_inv {A B : Type} (m : M env A) (f : A -> M env B) w b w' :
  (m ≫= f) w = Some (b, w') ->
  exists a w1, m w = Some (a, w1) /\ f a w1 = Some (b, w').
Proof.
  cbv beta iota delta [mbind M_bind]. destruct (m w) as [[a w1]|].
  - intros H. exists a, w1. auto.
  - discriminate.
Qed.

Lemma getValues_failure_empty (w w' : World env) statement index done values :
  getValues env statement index w = Some ((done, values), w') ->
  done = false -> values = ∅.
Proof.
  unfold getValues. intros Hrun Hdone.
  apply bind_Some_inv in Hrun as (a & w1 & _ & Hrun).
  apply bind_Some_inv in Hrun as (prepared & w2 & _ & Hrun).
  apply bind_Some_inv in Hrun as ([done0 values0] & w3 & _ & Hrun).
  apply bind_Some_inv in Hrun as ([] & w4 & _ & Hrun).
  cbv beta iota delta [mret M_ret] in Hrun.
  injection Hrun as Hd Hv _. subst done0 done. cbn in Hv. congruence.
Qed.

Lemma getValues_post (w : World env) p statement index :
  m_handle env w = Some p ->
  addressesFresh w ->
  compilesProperly p (db env w) statement ->
  exists done values w',
    getValues env statement index w = Some ((done, values), w') /\
    m_codeToBeIgnored env w' = m_codeToBeIgnored env w /\
    m_handleStatements env w' = m_handleStatements env w /\
    (fst (fst (sqlite3_prepare_v2 env p (getDescription env statement)
                 (db env w))) <> SQLITE_OK ->
     done = false /\
     exists e,
       notifier env w' = notifier env w ++ [e] /\
       code e =
         fst (fst (sqlite3_prepare_v2 env p (getDescription env statement)
                     (db env w))) /\
       level e =
         (if nonIgnorable (m_codeToBeIgnored env w) (code e)
          then LevelError else LevelIgnore)).
Proof.
  intros Hp Hfresh Hproper. unfold addressesFresh, compilesProperly in *.
  destruct w as [h err lvl mask pool ntf e sink next]. cbn in Hp, Hfresh, Hproper.
  subst h. unfold getValues. unfold_ops. cbn.
  rewrite (lookupStatement_fresh next _ pool Hfresh). cbn.
  destruct (sqlite3_prepare_v2 env p (getDescription env statement) e)
    as [[rc stmt] e'].
  destruct (Z.eqb_spec rc SQLITE_OK) as [->|Hrc]; cbn.
  - destruct (Hproper stmt e' eq_refl) as (s & -> & Hends).
    rewrite (storeStatement_fresh next _ _ pool Hfresh).
    rewrite (lookupStatement_fresh next _ pool Hfresh). cbn.
    rewrite (storeStatement_fresh next _ _ pool Hfresh).
    match goal with
    | |- context [getValues_loop env ?t next index ?v ?w1] =>
        destruct (getValues_loop_post t w1 p pool next s index v)
          as (done & values & s' & w' & Hrun & Hsame & Hpool)
    end; try assumption; try reflexivity; [lia|].
    rewrite Hrun. cbn.
    rewrite Hpool, (lookupStatement_fresh next _ pool Hfresh). cbn.
    rewrite Hpool, (storeStatement_fresh next _ _ pool Hfresh).
    rewrite (eraseStatement_fresh next _ pool Hfresh).
    eexists _, _, _. split; [reflexivity|].
    unfold sameHandle in Hsame. cbn in *.
    repeat split; try tauto; contradiction.
  - rewrite (error_eq env _ p rc) by (reflexivity || exact Hrc). cbn.
    destruct (nonIgnorable mask rc) eqn:Hn; cbn;
      rewrite (storeStatement_fresh next _ _ pool Hfresh);
      rewrite (eraseStatement_fresh next _ pool Hfresh);
      eexists _, _, _; (split; [reflexivity|]); cbn;
      (repeat split; try reflexivity);
      eexists; (split; [reflexivity|]); cbn; rewrite Hn; auto.
Qed.

(** C10. Whenever [getValues], and so [getColumns], reports failure, the set
    it returns is empty; and on an opened connection whose engine compiles
    the statement properly [getValues] does return. *)
Theorem failed_getValues_returns_no_values
    (w : World env) p (statement : Statement) (index : Z) :
  (forall done values w',
     getValues env statement index w = Some ((done, values), w') ->
     done = false -> values = ∅) /\
  (forall schema table done values w',
     getColumns env schema table w = Some ((done, values), w') ->
     done = false -> values = ∅) /\
  (m_handle env w = Some p ->
   addressesFresh w ->
   compilesProperly p (db env w) statement ->
   exists done values w',
     getValues env statement index w = Some ((done, values), w')).
Proof.
  split; [|split].
  - intros done values w'. apply getValues_failure_empty.
  - intros schema table done values w'. unfold getColumns.
    apply getValues_failure_empty.
  - intros Hp Hfresh Hproper.
    destruct (getValues_post w p statement index Hp Hfresh Hproper)
      as (done & values & w' & Hrun & _).
    eauto.
Qed.

(** C6, amended.  [getColumns] marks no code as ignorable: it runs its one
    table-info statement under the mask the caller left and leaves that
    mask as it was.  When the engine refuses the statement, the failure is
    classified under the caller's mask -- Error severity unless that very
    code, or a negative one, was marked -- and the result is (false, empty). *)
Theorem getColumns_probes_under_the_callers_mask
    (w : World env) p (schema table : string) :
  let rc :=
    fst (fst (sqlite3_prepare_v2 env p
                (getDescription env (StatementPragma_tableInfo schema table))
                (db env w))) in
  m_handle env w = Some p ->
  addressesFresh w ->
  compilesProperly p (db env w) (StatementPragma_tableInfo schema table) ->
  exists done values w',
    getColumns env schema table w = Some ((done, values), w') /\
    m_codeToBeIgnored env w' = m_codeToBeIgnored env w /\
    (rc <> SQLITE_OK ->
     done = false /\ values = ∅ /\
     exists e,
       notifier env w' = notifier env w ++ [e] /\
       code e = rc /\
       level e =
         (if nonIgnorable (m_codeToBeIgnored env w) rc
          then LevelError else LevelIgnore)).
Proof.
  intros rc Hp Hfresh Hproper. unfold getColumns.
  destruct (getValues_post w p _ 1 Hp Hfresh Hproper)
    as (done & values & w' & Hrun & Hmask & _ & Hfail).
  exists done, values, w'. split; [exact Hrun|]. split; [exact Hmask|].
  intros Hrc. destruct (Hfail Hrc) as (Hdone & e & Hsink & Hcode & Hlevel).
  split; [exact Hdone|].
  split; [exact (getValues_failure_empty w w' _ 1 done values Hrun Hdone)|].
  exists e. subst rc. rewrite <- Hcode. auto.
Qed.

(** *** Close *)




Lemma finalizeEach_eq (l : list (nat * HandleStatement)) :
  forall w : World env,
    finalizeEach env l w =
    Some (finalizedPool l,
          set_notifier env (leftoverReports env l (notifier env w))
            (set_db env (finalizedDb l (db env w)) w)).
Proof.
  induction l as [|[a [[s|]]] l IH]; intros w.
  - destruct w. reflexivity.
  - cbn [finalizeEach]. unfold_ops. cbn. rewrite IH. destruct w. reflexivity.
  - cbn [finalizeEach]. unfold_ops. cbn. rewrite IH. destruct w. reflexivity.
Qed.

Lemma finalizedPool_unprepared l :
  Forall (fun x => isPrepared (snd x) = false) (finalizedPool l).
Proof. unfold finalizedPool. induction l; cbn; constructor; auto. Qed.

Lemma finalizedPool_addresses l : map fst (finalizedPool l) = map fst l.
Proof.
  unfold finalizedPool. induction l as [|x l IH]; cbn; [|rewrite IH]; reflexivity.
Qed.

(** C8. [close] always returns and leaves the handle null.  On an opened
    connection every statement of the pool ends up finalized, the depth
    counter ends at 0 and, when the depth was not 0 or a transaction was
    open, the engine is sent a rollback before the connection is closed.
    On a closed connection [close] changes nothing. *)
Theorem close_always_closes (w : World env) :
  exists w',
    close env w = Some (tt, w') /\
    m_handle env w' = None /\
    (m_handle env w = None -> w' = w) /\
    (forall p, m_handle env w = Some p ->
       let e1 := finalizedDb (m_handleStatements env w) (db env w) in
       m_nestedLevel env w' = 0 /\
       Forall (fun x => isPrepared (snd x) = false) (m_handleStatements env w') /\
       map fst (m_handleStatements env w') = map fst (m_handleStatements env w) /\
       db env w' =
         sqlite3_close_v2 env p
           (if (m_nestedLevel env w =? 0)
               && negb (sqlite3_get_autocommit env p e1 =? 0)
            then e1
            else snd (sqlite3_exec env p
                        (getDescription env StatementRollback_rollback) e1))).
Proof.
  unfold close. unfold_ops. destruct (m_handle env w) as [p|] eqn:Hp.
  - unfold finalizeStatements, WCTRemedialAssert. unfold_ops.
    rewrite finalizeEach_eq. cbn.
    set (e1 := finalizedDb (m_handleStatements env w) (db env w)).
    assert (Hremedy :
      forall w1 : World env,
        m_handle env w1 = Some p ->
        db env w1 = e1 ->
        m_handleStatements env w1 = finalizedPool (m_handleStatements env w) ->
        exists w2,
          rollbackTransaction env w1 = Some (tt, w2) /\
          m_handle env w2 = Some p /\
          m_nestedLevel env w2 = 0 /\
          m_handleStatements env w2 = finalizedPool (m_handleStatements env w) /\
          db env w2 =
            snd (sqlite3_exec env p
                   (getDescription env StatementRollback_rollback) e1)).
    { intros w1 Hp1 Hdb1 Hpool1.
      destruct (rollbackTransaction_post env w1 p Hp1)
        as (w2 & Hrun & Hh & Hl & _ & Hpool & Hdb).
      exists w2. rewrite Hpool, Hdb, Hdb1. auto. }
    destruct (Z.eqb_spec (m_nestedLevel env w) 0) as [H0|H0]; cbn.
    + rewrite Hp.
      destruct (sqlite3_get_autocommit env p e1 =? 0) eqn:Hin;
        cbn; rewrite Hin; cbn.
      * edestruct Hremedy as (w2 & Hrun & Hh & Hl & Hpool & Hdb);
          [| | |rewrite Hrun]; [cbn; exact Hp|reflexivity|reflexivity|].
        eexists. split; [reflexivity|]. cbn. split; [reflexivity|].
        split; [discriminate|]. intros p' [= <-]. rewrite Hpool, Hdb, Hin.
        split; [exact Hl|].
        split; [apply finalizedPool_unprepared|].
        split; [apply finalizedPool_addresses|reflexivity].
      * eexists. split; [reflexivity|]. cbn. split; [reflexivity|].
        split; [discriminate|]. intros p' [= <-]. rewrite Hin.
        split; [exact H0|].
        split; [apply finalizedPool_unprepared|].
        split; [apply finalizedPool_addresses|reflexivity].
    + edestruct Hremedy as (w2 & Hrun & Hh & Hl & Hpool & Hdb);
        [| | |rewrite Hrun]; [cbn; exact Hp|reflexivity|reflexivity|].
      eexists. split; [reflexivity|]. cbn. split; [reflexivity|].
      split; [discriminate|]. intros p' [= <-]. rewrite Hpool, Hdb.
      split; [exact Hl|].
      split; [apply finalizedPool_unprepared|].
      split; [apply finalizedPool_addresses|reflexivity].
  - exists w. split; [reflexivity|]. split; [exact Hp|].
    split; [reflexivity|]. intros p; discriminate.
Qed.
End StatementPool.

(** ** Checkpoint policy *)

Lemma accumulatedPages_onCommitted path pages q :
  accumulatedPages path (onCommitted path pages q) =
  accumulatedPages path q + pages.
Proof.
  unfold accumulatedPages, onCommitted. cbn. rewrite lookup_insert_eq.
  reflexivity.
Qed.

Lemma commits_below_threshold path (ps : list Z) :
  forall q,
    Forall (fun p => 0 <= p) ps ->
    accumulatedPages path q + sumPages ps < framesThresholdForCritical ->
    requests (commits path ps q) =
    requests q ++ map (fun _ => (path, delayForNonCritical)) ps.
Proof.
  unfold sumPages.
  induction ps as [|p ps IH]; intros q Hpos Hsum; cbn.
  - rewrite app_nil_r. reflexivity.
  - inversion Hpos as [|? ? Hp Hps]; subst. cbn in Hsum.
    assert (Hrest : 0 <= fold_right Z.add 0 ps).
    { clear -Hps. induction Hps; cbn; lia. }
    unfold commits in IH. rewrite IH; [|exact Hps|].
    + unfold onCommitted at 1. cbn.
      destruct (Z.leb_spec framesThresholdForCritical
                  (accumulatedPages path q + p)) as [Hge|Hlt]; [lia|].
      rewrite <- app_assoc. reflexivity.
    + rewrite accumulatedPages_onCommitted. lia.
Qed.

(** C7. On a committed notification, the page count is accumulated for the
    path; an accumulated count below 100 schedules with delay 10.0, a count
    of 100 or more schedules with delay 1.0; and a run of commits that stays
    below the threshold schedules every time at delay 10.0. *)
Theorem checkpoint_delay_follows_threshold
    (path : string) (pages : Z) (q : CheckpointQueue) :
  let total := accumulatedPages path q + pages in
  accumulatedPages path (onCommitted path pages q) = total /\
  (total < 100 ->
   requests (onCommitted path pages q) = requests q ++ [(path, 10%Q)]) /\
  (100 <= total ->
   requests (onCommitted path pages q) = requests q ++ [(path, 1%Q)]) /\
  (forall ps : list Z,
     Forall (fun p => 0 <= p) ps ->
     accumulatedPages path q + sumPages ps < 100 ->
     requests (commits path ps q) =
     requests q ++ map (fun _ => (path, 10%Q)) ps).
Proof.
  intros total. split; [apply accumulatedPages_onCommitted|].
  split; [|split].
  - intros Hlt. unfold onCommitted. cbn. fold total.
    destruct (Z.leb_spec framesThresholdForCritical total) as [Hge|_];
      [unfold framesThresholdForCritical in Hge; lia|reflexivity].
  - intros Hge. unfold onCommitted. cbn. fold total.
    destruct (Z.leb_spec framesThresholdForCritical total) as [_|Hlt];
      [reflexivity|unfold framesThresholdForCritical in Hlt; lia].
  - intros ps. apply commits_below_threshold.
Qed.

(** C7 on a fresh queue: 30 then 40 pages, 30 then 70 pages, and a run of
    three small commits. *)
Lemma checkpoint_delay_witness :
  requests (onCommitted "a.db" 40 (onCommitted "a.db" 30 (mkQueue ∅ []))) =
    [("a.db"%string, 10%Q); ("a.db"%string, 10%Q)] /\
  requests (onCommitted "a.db" 70 (onCommitted "a.db" 30 (mkQueue ∅ []))) =
    [("a.db"%string, 10%Q); ("a.db"%string, 1%Q)] /\
  requests (commits "a.db" [10; 20; 30] (mkQueue ∅ [])) =
    [("a.db"%string, 10%Q); ("a.db"%string, 10%Q); ("a.db"%string, 10%Q)].
Proof.
  pose proof (checkpoint_delay_follows_threshold "a.db" 40
                (onCommitted "a.db" 30 (mkQueue ∅ []))) as (_ & Hlow & _ & _).
  pose proof (checkpoint_delay_follows_threshold "a.db" 70
                (onCommitted "a.db" 30 (mkQueue ∅ []))) as (_ & _ & Hhigh & _).
  pose proof (checkpoint_delay_follows_threshold "a.db" 0
                (mkQueue ∅ [])) as (_ & _ & _ & Hrun).
  split; [|split].
  - apply Hlow. vm_compute. reflexivity.
  - apply Hhigh. vm_compute. discriminate.
  - apply (Hrun [10; 20; 30]).
    + repeat constructor; lia.
    + vm_compute. reflexivity.
Defined.

(** ** The small engine at work *)

Lemma Toy_savepoints_keep_transaction : SavepointsKeepTransaction Toy.env.
Proof.
  intros p [auto tbl ec faults cuts] s Hs Hin. cbn in Hin |- *.
  destruct auto; [discriminate|].
  destruct s; try discriminate; unfold Toy.exec; cbn [Toy.refused];
    destruct (Toy.assoc _ faults); vm_compute; reflexivity.
Qed.

(** On the small engine, without injected faults, the answer to the probe
    is the schema's: the tables of the schema are reported present and all
    other names absent. *)

Lemma list_ascii_of_string_app (s1 s2 : string) :
  list_ascii_of_string (s1 +:+ s2) =
  list_ascii_of_string s1 ++ list_ascii_of_string s2.
Proof. induction s1 as [|c s1 IH]; simpl; [|rewrite IH]; reflexivity. Qed.

Lemma string_app_inv_tail (s1 s2 t : string) :
  (s1 +:+ t = s2 +:+ t)%string -> s1 = s2.
Proof.
  intros H. apply (f_equal list_ascii_of_string) in H.
  rewrite !list_ascii_of_string_app in H. apply app_inv_tail in H.
  rewrite <- (string_of_list_ascii_of_string s1),
          <- (string_of_list_ascii_of_string s2), H.
  reflexivity.
Qed.

Lemma Toy_select_description_inj (t1 t2 : string) :
  Toy.description (StatementSelect_select1_from_limit0 t1) =
  Toy.description (StatementSelect_select1_from_limit0 t2) ->
  t1 = t2.
Proof.
  cbn. intros H. injection H as H.
  exact (string_app_inv_tail t1 t2 " LIMIT 0" H).
Qed.

Lemma Toy_find_listed (f : string * list string -> bool)
    (ts : list (string * list string)) (t : string * list string) :
  In t ts -> f t = true -> exists t', find f ts = Some t'.
Proof.
  intros Hin Hf. destruct (find f ts) as [t'|] eqn:Hfind; [eauto|].
  rewrite (find_none f ts Hfind t Hin) in Hf. discriminate.
Qed.

Lemma Toy_find_unlisted (f : string * list string -> bool)
    (ts : list (string * list string)) :
  (forall t, In t ts -> f t = false) -> find f ts = None.
Proof.
  intros Hall. destruct (find f ts) as [t'|] eqn:Hfind; [|reflexivity].
  destruct (find_some f ts Hfind) as [Hin Hf].
  rewrite (Hall t' Hin) in Hf. discriminate.
Qed.

Lemma Toy_probe_reflects_schema (e : Toy.Db) (table : string) :
  Toy.refused e = [] ->
  Toy.interrupted e = [] ->
  (In table (map fst (Toy.tables e)) ->
   probeReportsPresent Toy.env tt e table) /\
  (~ In table (map fst (Toy.tables e)) ->
   probeReportsAbsent Toy.env tt e table).
Proof.
  intros Hrefused Hcuts.
  unfold probeReportsPresent, probeReportsAbsent.
  cbn [sqlite3_prepare_v2 getDescription sqlite3_errcode Toy.env].
  unfold Toy.prepare, Toy.query. rewrite Hrefused, Hcuts. cbn [Toy.assoc].
  split; intros Hin.
  - apply in_map_iff in Hin as (t & <- & Hin).
    destruct (Toy_find_listed
                (fun t' => String.eqb
                   (Toy.description (StatementSelect_select1_from_limit0 (fst t)))
                   (Toy.description (StatementSelect_select1_from_limit0 (fst t'))))
                (Toy.tables e) t Hin (String.eqb_refl _)) as [y ->].
    cbn. split; [reflexivity|]. eexists. split; [reflexivity|].
    left. reflexivity.
  - rewrite Toy_find_unlisted.
    + rewrite Toy_find_unlisted; [cbn; split; reflexivity|].
      intros t _. reflexivity.
    + intros t Ht. apply String.eqb_neq. intros Heq. apply Hin.
      apply in_map_iff. exists t. split; [|exact Ht]. symmetry.
      exact (Toy_select_description_inj table (fst t) Heq).
Qed.

Example toy_three_levels :
  option_map (fun r => m_nestedLevel Toy.env (snd r))
    (calls Toy.env (repeat Begin 3) (Toy.opened Toy.idle)) = Some 2.
Proof. vm_compute. reflexivity. Qed.

Example toy_tableExists_person :
  option_map fst (tableExists Toy.env "person" (Toy.opened Toy.idle)) =
  Some (true, true).
Proof. vm_compute. reflexivity. Qed.

Example toy_tableExists_nobody :
  option_map fst (tableExists Toy.env "nobody" (Toy.opened Toy.idle)) =
  Some (true, false).
Proof. vm_compute. reflexivity. Qed.

Example toy_getColumns_pet :
  option_map fst (getColumns Toy.env "main" "pet" (Toy.opened Toy.idle)) =
  Some (true, {[ "id"; "owner"; "kind" ]}%string).
Proof. vm_compute. reflexivity. Qed.

Example toy_getColumns_nobody :
  option_map fst (getColumns Toy.env "main" "nobody" (Toy.opened Toy.idle)) =
  Some (true, ∅).
Proof. vm_compute. reflexivity. Qed.

(** C1 on the small engine: three nested scopes, closed by one rollback and
    two commits. *)
Lemma nested_calls_witness :
  (exists w',
     calls Toy.env
       (pairedCalls 3 [Rollback; CommitOrRollback; CommitOrRollback])
       (Toy.opened Toy.idle) = Some (tt, w') /\
     m_nestedLevel Toy.env w' = 0) /\
  (forall pre suf : list Call,
     pairedCalls 3 [Rollback; CommitOrRollback; CommitOrRollback] = pre ++ suf ->
     exists w',
       calls Toy.env pre (Toy.opened Toy.idle) = Some (tt, w') /\
       forall w'',
         isInTransaction Toy.env w' = Some (false, w'') ->
         m_nestedLevel Toy.env w' = 0).
Proof.
  destruct (nested_calls_return_depth_to_zero Toy.env (Toy.opened Toy.idle) 3
              [Rollback; CommitOrRollback; CommitOrRollback]
              eq_refl eq_refl eq_refl eq_refl) as [Hdepth Hflag].
  split; [exact Hdepth|exact (Hflag Toy_savepoints_keep_transaction)].
Defined.

(** C2, counterexample.  At depth 1 the caller has marked [SQLITE_BUSY]
    and the engine refuses the release with [SQLITE_BUSY]: releasing fails,
    yet the call returns true, and the engine is left as the refused
    release left it, with no rollback to the savepoint. *)
Lemma refused_release_masked_counterexample :
  0 < m_nestedLevel Toy.env Toy.releaseRefusedMasked /\
  fst (sqlite3_exec Toy.env tt "RELEASE WCDBSavepoint_1"
         (db Toy.env Toy.releaseRefusedMasked)) = SQLITE_BUSY /\
  exists w',
    commitOrRollbackNestedTransaction Toy.env Toy.releaseRefusedMasked =
      Some (true, w') /\
    m_nestedLevel Toy.env w' = 0 /\
    db Toy.env w' =
      snd (sqlite3_exec Toy.env tt "RELEASE WCDBSavepoint_1"
             (db Toy.env Toy.releaseRefusedMasked)) /\
    db Toy.env w' <>
      snd (sqlite3_exec Toy.env tt "ROLLBACK TO WCDBSavepoint_1"
             (db Toy.env w')) /\
    map level (notifier Toy.env w') = [LevelIgnore].
Proof.
  split; [reflexivity|]. split; [reflexivity|].
  eexists. split; [vm_compute; reflexivity|].
  repeat split. vm_compute. discriminate.
Qed.

(** C2 as amended, on the small engine: at depth 1 the release is refused
    with [SQLITE_BUSY], with no code marked and with [SQLITE_BUSY] marked. *)
Lemma refused_release_witness :
  (exists w',
     commitOrRollbackNestedTransaction Toy.env Toy.releaseRefused =
       Some (false, w') /\
     m_nestedLevel Toy.env w' = 0) /\
  (exists w',
     commitOrRollbackNestedTransaction Toy.env Toy.releaseRefusedMasked =
       Some (true, w') /\
     m_nestedLevel Toy.env w' = 0).
Proof.
  split.
  - destruct (refused_release_rolls_back_unless_masked Toy.env
                Toy.releaseRefused tt)
      as (b & w' & Hrun & Hlevel & Hhard & _).
    + reflexivity.
    + vm_compute. split; [reflexivity|discriminate].
    + vm_compute. discriminate.
    + destruct Hhard as [Hb _]; [left; reflexivity|].
      exists w'. rewrite Hb in Hrun. split; [exact Hrun|exact Hlevel].
  - destruct (refused_release_rolls_back_unless_masked Toy.env
                Toy.releaseRefusedMasked tt)
      as (b & w' & Hrun & Hlevel & _ & Hsoft).
    + reflexivity.
    + vm_compute. split; [reflexivity|discriminate].
    + vm_compute. discriminate.
    + destruct Hsoft as [Hb _]; [left; reflexivity|].
      exists w'. rewrite Hb in Hrun. split; [exact Hrun|exact Hlevel].
Defined.

(** C3, counterexample.  With -1 marked, [SQLITE_ERROR] differs from the
    marked code, yet [error] returns true and the record it notifies has
    Ignore severity. *)
Lemma error_negative_mask_counterexample :
  SQLITE_ERROR <> m_codeToBeIgnored Toy.env Toy.ignoringAll /\
  exists w',
    error Toy.env SQLITE_ERROR "SELECT 1" Toy.ignoringAll = Some (true, w') /\
    map level (notifier Toy.env w') = [LevelIgnore].
Proof.
  split; [discriminate|]. eexists. split; [vm_compute; reflexivity|].
  reflexivity.
Qed.

(** C3 as amended, on the small engine: [SQLITE_BUSY] with no code marked,
    and with -1 marked. *)
Lemma error_classification_witness :
  (exists w',
     error Toy.env SQLITE_BUSY "COMMIT" (Toy.opened Toy.idle) =
       Some (false, w')) /\
  (exists w',
     error Toy.env SQLITE_BUSY "COMMIT" Toy.ignoringAll = Some (true, w')).
Proof.
  split.
  - destruct (error_classification Toy.env (Toy.opened Toy.idle) tt
                SQLITE_BUSY "COMMIT" eq_refl) as [Hhard _]; [discriminate|].
    destruct Hhard as (e & w' & Hrun & _); [left; reflexivity|].
    exists w'. exact Hrun.
  - destruct (error_classification Toy.env Toy.ignoringAll tt
                SQLITE_BUSY "COMMIT" eq_refl) as [_ Hsoft]; [discriminate|].
    destruct Hsoft as (e & w' & Hrun & _); [right; reflexivity|].
    exists w'. exact Hrun.
Defined.

(** C9 on the small engine. *)
Lemma negative_mask_witness :
  exists w',
    (markErrorAsIgnorable Toy.env (-1) ;; error Toy.env SQLITE_BUSY "ROLLBACK")
      (Toy.opened Toy.idle) = Some (true, w').
Proof.
  destruct (negative_mask_ignores_every_code Toy.env (Toy.opened Toy.idle) tt
              (-1) SQLITE_BUSY "ROLLBACK" eq_refl)
    as (e & w' & Hrun & _); [reflexivity|discriminate|].
  exists w'. exact Hrun.
Defined.

(** C5, counterexample.  The caller has marked [SQLITE_BUSY] and the commit
    is refused with [SQLITE_ERROR]: the failure path is taken and the mask
    after the call is not the caller's. *)
Lemma failure_path_mask_counterexample :
  exists w',
    commitOrRollbackTransaction Toy.env Toy.busyMarked = Some (false, w') /\
    m_codeToBeIgnored Toy.env w' <> m_codeToBeIgnored Toy.env Toy.busyMarked.
Proof.
  eexists. split; [vm_compute; reflexivity|]. vm_compute. discriminate.
Qed.

(** C5 as amended, on the same input. *)
Lemma failure_path_witness :
  exists w',
    commitOrRollbackTransaction Toy.env Toy.busyMarked = Some (false, w') /\
    m_codeToBeIgnored Toy.env w' = SQLITE_OK.
Proof.
  destruct (failure_path_leaves_mask_unset Toy.env Toy.busyMarked tt eq_refl)
    as [(b & w' & Hrun & Hb & Hmask) _].
  assert (Hfalse : b = false).
  { apply Hb. vm_compute. split; [discriminate|reflexivity]. }
  subst b. exists w'. split; [exact Hrun|apply Hmask; reflexivity].
Defined.

(** C4 on the small engine: a name that is not in the schema, and a table
    of the schema. *)
Lemma tableExists_witness :
  (exists w',
     tableExists Toy.env "nobody" (Toy.opened Toy.idle) =
       Some ((true, false), w')) /\
  (exists w',
     tableExists Toy.env "person" (Toy.opened Toy.idle) =
       Some ((true, true), w')).
Proof.
  split.
  - destruct (tableExists_reports_presence Toy.env (Toy.opened Toy.idle) tt
                "nobody" eq_refl eq_refl) as [Habsent _].
    destruct Habsent as (w' & Hrun & _).
    + vm_compute. split; reflexivity.
    + exists w'. exact Hrun.
  - destruct (tableExists_reports_presence Toy.env (Toy.opened Toy.idle) tt
                "person" eq_refl eq_refl) as [_ Hpresent].
    destruct Hpresent as (w' & Hrun & _).
    + vm_compute. split; [reflexivity|]. eexists. split; [reflexivity|].
      left. reflexivity.
    + exists w'. exact Hrun.
Defined.

(** C6, counterexample.  With no code marked, [getColumns] on a schema the
    engine does not know fails with [SQLITE_ERROR]; the record it notifies
    has Error severity and the call reports failure, whereas the probe of
    [tableExists], refused with the same code, is notified with Ignore
    severity and reported as a success. *)
Lemma getColumns_mask_counterexample :
  (exists r w',
     getColumns Toy.env "aux" "pet" (Toy.opened Toy.idle) = Some (r, w') /\
     fst r = false /\
     map code (notifier Toy.env w') = [SQLITE_ERROR] /\
     map level (notifier Toy.env w') = [LevelError]) /\
  (exists r w',
     tableExists Toy.env "nobody" (Toy.opened Toy.idle) = Some (r, w') /\
     fst r = true /\
     map code (notifier Toy.env w') = [SQLITE_ERROR] /\
     map level (notifier Toy.env w') = [LevelIgnore]).
Proof.
  split; eexists _, _; (split; [vm_compute; reflexivity|]);
    repeat split; reflexivity.
Qed.

(** C6 as amended, on the same input. *)
Lemma getColumns_witness :
  exists w',
    getColumns Toy.env "aux" "pet" (Toy.opened Toy.idle) =
      Some ((false, ∅), w') /\
    m_codeToBeIgnored Toy.env w' = SQLITE_OK.
Proof.
  destruct (getColumns_probes_under_the_callers_mask Toy.env
              (Toy.opened Toy.idle) tt "aux" "pet" eq_refl eq_refl)
    as (done & values & w' & Hrun & Hmask & Hfail).
  - intros stmt e' Hprep. vm_compute in Hprep. discriminate.
  - destruct Hfail as (-> & -> & _); [vm_compute; discriminate|].
    exists w'. split; [exact Hrun|exact Hmask].
Defined.

(** C8 on the small engine: a connection at depth 2 inside a transaction
    with a statement left prepared, and a closed connection. *)
Lemma close_witness :
  (exists w',
     close Toy.env Toy.unpaired = Some (tt, w') /\
     m_handle Toy.env w' = None /\
     m_nestedLevel Toy.env w' = 0 /\
     Forall (fun x => isPrepared (snd x) = false)
       (m_handleStatements Toy.env w') /\
     Toy.autocommit (db Toy.env w') = true) /\
  close Toy.env Toy.closed = Some (tt, Toy.closed).
Proof.
  split.
  - destruct (close_always_closes Toy.env Toy.unpaired)
      as (w' & Hrun & Hnull & _ & Hopened).
    destruct (Hopened tt eq_refl) as (Hlevel & Hpool & _ & Hdb).
    exists w'. repeat split; try assumption. rewrite Hdb. reflexivity.
  - destruct (close_always_closes Toy.env Toy.closed)
      as (w' & Hrun & _ & Hnoop & _).
    rewrite <- (Hnoop eq_refl) at 2. exact Hrun.
Defined.

(** C10 on the small engine: the run of the table-info statement delivers
    its three rows and then fails with [SQLITE_BUSY]. *)
Lemma failed_getValues_witness :
  exists w',
    getColumns Toy.env "main" "pet"
      (Toy.opened
         (Toy.interrupting [("PRAGMA main.table_info(pet)"%string, SQLITE_BUSY)])) =
      Some ((false, ∅), w').
Proof.
  destruct (failed_getValues_returns_no_values Toy.env
              (Toy.opened
                 (Toy.interrupting
                    [("PRAGMA main.table_info(pet)"%string, SQLITE_BUSY)]))
              tt (StatementPragma_tableInfo "main" "pet") 1)
    as (Hempty & _ & Hreturns).
  destruct Hreturns as (done & values & w' & Hrun); [reflexivity|reflexivity| |].
  - intros stmt e' Hprep. vm_compute in Hprep.
    injection Hprep as <- _. eexists. split; [reflexivity|].
    split; discriminate.
  - assert (Hdone : done = false).
    { assert (Hfst : option_map (fun r => fst (fst r))
                       (getValues Toy.env (StatementPragma_tableInfo "main" "pet") 1
                          (Toy.opened
                             (Toy.interrupting
                                [("PRAGMA main.table_info(pet)"%string,
                                  SQLITE_BUSY)]))) = Some false)
        by (vm_compute; reflexivity).
      rewrite Hrun in Hfst. cbn in Hfst. congruence. }
    subst done. rewrite (Hempty false values w' Hrun eq_refl) in Hrun.
    exists w'. exact Hrun.
Defined.

(** * Further properties of the connection *)

Section MoreConnection.

Context (env : Env).

#[local] Arguments error : simpl never.
#[local] Arguments execute : simpl never.

Ltac run_monad :=
  cbv beta iota delta
    [mbind mret M_bind M_ret get modify assertionFailure openedHandle
     notify getExtendedErrorCode getErrorMessage getResultCode
     isInTransaction markErrorAsIgnorable markErrorAsUnignorable].

Lemma nonIgnorable_unset rc : rc <> SQLITE_OK -> nonIgnorable SQLITE_OK rc = true.
Proof.
  intros H. unfold nonIgnorable, SQLITE_OK in *. cbn.
  apply negb_true_iff, Z.eqb_neq. exact H.
Qed.

Lemma nonIgnorable_negative m rc : m < 0 -> nonIgnorable m rc = false.
Proof.
  intros H. unfold nonIgnorable. apply andb_false_iff. left.
  apply Z.leb_gt. exact H.
Qed.

Lemma classified_level (w : World env) p rc sql :
  level (classified p w rc sql) =
  (if nonIgnorable (m_codeToBeIgnored env w) rc then LevelError else LevelIgnore).
Proof. reflexivity. Qed.

(** [execute], case by case. *)
Lemma execute_exact (w : World env) p sql :
  m_handle env w = Some p ->
  let rc := fst (sqlite3_exec env p sql (db env w)) in
  let w1 := set_db env (snd (sqlite3_exec env p sql (db env w))) w in
  let c := classified p w1 rc sql in
  execute env sql w =
  Some (if rc =? SQLITE_OK then (true, w1)
        else if nonIgnorable (m_codeToBeIgnored env w) rc
             then (false,
                   set_m_error env c
                     (set_notifier env (notifier env w ++ [c]) w1))
             else (true, set_notifier env (notifier env w ++ [c]) w1)).
Proof.
  intros Hp. rewrite (execute_eq env w p sql Hp). cbn zeta.
  destruct (Z.eqb_spec (fst (sqlite3_exec env p sql (db env w))) SQLITE_OK)
    as [_|Hne]; [reflexivity|].
  rewrite (error_eq env _ p _ sql) by (cbn; assumption). reflexivity.
Qed.

(** With a negative code marked, [execute] cannot fail, keeps the handle's
    error and notifies nothing but Ignore-severity records. *)
Lemma execute_ignoring_all (w : World env) p sql :
  m_handle env w = Some p ->
  m_codeToBeIgnored env w < 0 ->
  exists w' l,
    execute env sql w = Some (true, w') /\
    sameConnection w w' /\
    db env w' = snd (sqlite3_exec env p sql (db env w)) /\
    m_error env w' = m_error env w /\
    notifier env w' = notifier env w ++ l /\
    Forall (fun e => level e = LevelIgnore) l.
Proof.
  intros Hp Hneg. rewrite (execute_exact w p sql Hp). cbn zeta.
  rewrite (nonIgnorable_negative _ _ Hneg).
  destruct (_ =? SQLITE_OK).
  - exists (set_db env (snd (sqlite3_exec env p sql (db env w))) w), [].
    unfold sameConnection. cbn. rewrite app_nil_r. auto 10.
  - eexists _, [_]. split; [reflexivity|]. unfold sameConnection. cbn.
    repeat split. constructor; [|constructor].
    rewrite classified_level. cbn. rewrite (nonIgnorable_negative _ _ Hneg).
    reflexivity.
Qed.

(** X1. Whatever code was marked before, once [markErrorAsUnignorable] has
    run every failing code is a hard error: [error] returns false, the
    record it notifies has Error severity and becomes the handle's error. *)
Theorem unmarked_errors_are_hard
    (w : World env) p (marked rc : Z) (sql : string) :
  m_handle env w = Some p ->
  rc <> SQLITE_OK ->
  exists e w',
    (markErrorAsIgnorable env marked ;;
     markErrorAsUnignorable env ;;
     error env rc sql) w = Some (false, w') /\
    notifier env w' = notifier env w ++ [e] /\
    code e = rc /\ level e = LevelError /\ m_error env w' = e.
Proof.
  intros Hp Hrc. run_monad.
  rewrite (error_eq env _ p rc sql) by (cbn; assumption).
  pose proof (nonIgnorable_unset rc Hrc) as Hn.
  cbn in Hn |- *. rewrite Hn.
  eexists _, _. split; [reflexivity|]. cbn.
  repeat split; try reflexivity.
  change (level (classified p
            (set_m_codeToBeIgnored env SQLITE_OK
               (set_m_codeToBeIgnored env marked w)) rc sql) = LevelError).
  rewrite classified_level. cbn. rewrite Hn. reflexivity.
Qed.


(** X3. [execute] hands the statement to the engine and changes neither the
    depth, nor the marked code, nor the pool.  When the engine accepts, it
    returns true without notifying anything; when the engine refuses, it
    notifies exactly one record and returns false exactly when the code is
    not covered by the mask. *)
Theorem execute_reports_engine_failures (w : World env) p (sql : string) :
  m_handle env w = Some p ->
  let rc := fst (sqlite3_exec env p sql (db env w)) in
  exists b w',
    execute env sql w = Some (b, w') /\
    db env w' = snd (sqlite3_exec env p sql (db env w)) /\
    m_nestedLevel env w' = m_nestedLevel env w /\
    m_codeToBeIgnored env w' = m_codeToBeIgnored env w /\
    m_handleStatements env w' = m_handleStatements env w /\
    (rc = SQLITE_OK ->
     b = true /\ notifier env w' = notifier env w /\
     m_error env w' = m_error env w) /\
    (rc <> SQLITE_OK ->
     b = negb (nonIgnorable (m_codeToBeIgnored env w) rc) /\
     exists e, notifier env w' = notifier env w ++ [e] /\ code e = rc).
Proof.
  intros Hp rc. rewrite (execute_exact w p sql Hp). cbn zeta. fold rc.
  destruct (Z.eqb_spec rc SQLITE_OK) as [Hok|Hne].
  - eexists _, _. split; [reflexivity|]. cbn. repeat split; tauto.
  - destruct (nonIgnorable (m_codeToBeIgnored env w) rc);
      eexists _, _; (split; [reflexivity|]); cbn;
      repeat split; try tauto; eexists; split; reflexivity.
Qed.


(** X4. A rollback is never a hard error: [rollbackTransaction] and
    [rollbackNestedTransaction] always return, keep the handle's error as
    it was, notify nothing but Ignore-severity records and leave no code
    marked. *)
Theorem rollback_is_never_a_hard_error (w : World env) p :
  m_handle env w = Some p ->
  (exists w' l,
     rollbackTransaction env w = Some (tt, w') /\
     m_error env w' = m_error env w /\
     notifier env w' = notifier env w ++ l /\
     Forall (fun e => level e = LevelIgnore) l /\
     m_codeToBeIgnored env w' = SQLITE_OK /\
     m_nestedLevel env w' = 0) /\
  (exists w' l,
     rollbackNestedTransaction env w = Some (tt, w') /\
     m_error env w' = m_error env w /\
     notifier env w' = notifier env w ++ l /\
     Forall (fun e => level e = LevelIgnore) l /\
     m_codeToBeIgnored env w' = SQLITE_OK).
Proof.
  intros Hp.
  assert (Htop : exists w' l,
     rollbackTransaction env w = Some (tt, w') /\
     m_error env w' = m_error env w /\
     notifier env w' = notifier env w ++ l /\
     Forall (fun e => level e = LevelIgnore) l /\
     m_codeToBeIgnored env w' = SQLITE_OK /\
     m_nestedLevel env w' = 0).
  { unfold rollbackTransaction. run_monad.
    match goal with
    | |- context [execute env ?sql ?w1] =>
        destruct (execute_ignoring_all w1 p sql)
          as (w' & l & Hrun & Hsame & _ & Herr & Hsink & Hlevels);
          [exact Hp|cbn; lia|]
    end.
    rewrite Hrun. eexists _, l. split; [reflexivity|].
    unfold sameConnection in Hsame. cbn in *. intuition congruence. }
  split; [exact Htop|].
  destruct (Z.eq_dec (m_nestedLevel env w) 0) as [H0|H0].
  - rewrite (rollbackNestedTransaction_top env w H0).
    destruct Htop as (w' & l & Hrun & Herr & Hsink & Hlevels & Hmask & _).
    exists w', l. auto.
  - unfold rollbackNestedTransaction, postDecrementNestedLevel. run_monad.
    destruct (Z.eqb_spec (m_nestedLevel env w) 0) as [|_]; [contradiction|].
    match goal with
    | |- context [execute env ?sql ?w1] =>
        destruct (execute_ignoring_all w1 p sql)
          as (w' & l & Hrun & Hsame & _ & Herr & Hsink & Hlevels);
          [exact Hp|cbn; lia|]
    end.
    rewrite Hrun. eexists _, l. split; [reflexivity|].
    unfold sameConnection in Hsame. cbn in *. intuition congruence.
Qed.

(** X5. After a commit that failed, the handle's error is the one of the
    commit: Error severity, the code the engine gave for the commit and the
    text of the commit statement, whatever becomes of the compensating
    rollback, which has been sent to the engine. *)
Theorem failed_commit_keeps_the_commit_error (w : World env) p :
  let commit := getDescription env StatementCommit_commit in
  let rollback := getDescription env StatementRollback_rollback in
  m_handle env w = Some p ->
  reportsFailure p w commit ->
  exists w',
    commitOrRollbackTransaction env w = Some (false, w') /\
    code (m_error env w') = fst (sqlite3_exec env p commit (db env w)) /\
    level (m_error env w') = LevelError /\
    infos (m_error env w') !! "SQL"%string = Some commit /\
    db env w' =
      snd (sqlite3_exec env p rollback
             (snd (sqlite3_exec env p commit (db env w)))).
Proof.
  intros commit rollback Hp [Hrc Hhard].
  unfold commitOrRollbackTransaction. run_monad.
  rewrite (execute_exact _ p commit) by exact Hp. cbn zeta.
  change (db env (set_m_nestedLevel env 0 w)) with (db env w).
  change (m_codeToBeIgnored env (set_m_nestedLevel env 0 w))
    with (m_codeToBeIgnored env w).
  fold commit in Hrc, Hhard.
  destruct (Z.eqb_spec (fst (sqlite3_exec env p commit (db env w))) SQLITE_OK)
    as [|_]; [contradiction|].
  rewrite Hhard. cbv beta iota. cbn [negb].
  match goal with
  | |- context [execute env ?sql ?w1] =>
      destruct (execute_ignoring_all w1 p sql)
        as (w' & l & Hrun & Hsame & Hdb & Herr & _);
        [exact Hp|cbn; lia|]
  end.
  rewrite Hrun. eexists. split; [reflexivity|].
  cbn in Herr, Hdb |- *. rewrite Herr, Hdb. cbn.
  rewrite Hhard. repeat split. apply lookup_insert_eq.
Qed.

(** X6. Inside a transaction, a begin and the end call that follows it act
    on the same savepoint: the begin creates the savepoint named after the
    new depth, the end call releases that savepoint, or rolls back to it,
    and the depth is back where it was. *)
Theorem begin_and_end_share_the_savepoint (w : World env) p :
  let name := savepointName (m_nestedLevel env w + 1) in
  let created :=
    snd (sqlite3_exec env p
           (getDescription env (StatementSavepoint_savepoint name)) (db env w)) in
  let released :=
    snd (sqlite3_exec env p
           (getDescription env (StatementRelease_release name)) created) in
  m_handle env w = Some p ->
  sqlite3_get_autocommit env p (db env w) = 0 ->
  0 <= m_nestedLevel env w < INT_MAX ->
  exists b1 w1,
    beginNestedTransaction env w = Some (b1, w1) /\
    m_nestedLevel env w1 = m_nestedLevel env w + 1 /\
    db env w1 = created /\
    (exists b2 w2,
       commitOrRollbackNestedTransaction env w1 = Some (b2, w2) /\
       m_nestedLevel env w2 = m_nestedLevel env w /\
       db env w2 =
         (if b2 then released
          else snd (sqlite3_exec env p
                      (getDescription env
                         (StatementRollback_rollbackToSavepoint name))
                      released))) /\
    (exists w2,
       rollbackNestedTransaction env w1 = Some (tt, w2) /\
       m_nestedLevel env w2 = m_nestedLevel env w /\
       db env w2 =
         snd (sqlite3_exec env p
                (getDescription env
                   (StatementRollback_rollbackToSavepoint name)) created)).
Proof.
  intros name created released Hp Hin Hl.
  assert (Hup : wrap_int (m_nestedLevel env w + 1) = m_nestedLevel env w + 1).
  { apply wrap_int_small. unfold in_int, INT_MIN, INT_MAX in *. lia. }
  destruct (beginNestedTransaction_post env w p Hp)
    as (b1 & w1 & Hrun1 & Hp1 & _ & _ & _ & Hinside).
  destruct (Hinside Hin) as [Hl1 Hdb1]. rewrite Hup in Hl1, Hdb1.
  assert (H1 : m_nestedLevel env w1 <> 0) by lia.
  assert (Hdown : wrap_int (m_nestedLevel env w1 - 1) = m_nestedLevel env w).
  { rewrite Hl1. replace (m_nestedLevel env w + 1 - 1) with (m_nestedLevel env w)
      by lia. apply wrap_int_small. unfold in_int, INT_MIN, INT_MAX in *. lia. }
  exists b1, w1. split; [exact Hrun1|]. split; [exact Hl1|].
  split; [exact Hdb1|]. split.
  - destruct (commitOrRollbackNestedTransaction_post env w1 p Hp1 H1)
      as (b2 & w2 & Hrun2 & _ & Hl2 & _ & _ & Hfail & Hok).
    exists b2, w2. split; [exact Hrun2|]. split; [congruence|].
    rewrite Hl1, Hdb1 in Hfail, Hok.
    destruct b2; [apply Hok|apply Hfail]; reflexivity.
  - destruct (rollbackNestedTransaction_post env w1 p Hp1 H1)
      as (w2 & Hrun2 & _ & Hl2 & _ & _ & Hdb2).
    exists w2. split; [exact Hrun2|]. split; [congruence|].
    rewrite Hl1, Hdb1 in Hdb2. exact Hdb2.
Qed.

(** X8. A begin that reports failure leaves the depth as it was outside a
    transaction, but inside a transaction the depth has been incremented
    all the same, although no savepoint was created. *)
Theorem failed_begin_and_the_depth (w : World env) p :
  m_handle env w = Some p ->
  (sqlite3_get_autocommit env p (db env w) <> 0 ->
   reportsFailure p w (getDescription env StatementBegin_beginImmediate) ->
   exists w',
     beginNestedTransaction env w = Some (false, w') /\
     m_nestedLevel env w' = m_nestedLevel env w) /\
  (sqlite3_get_autocommit env p (db env w) = 0 ->
   reportsFailure p w
     (getDescription env
        (StatementSavepoint_savepoint
           (savepointName (wrap_int (m_nestedLevel env w + 1))))) ->
   exists w',
     beginNestedTransaction env w = Some (false, w') /\
     m_nestedLevel env w' = wrap_int (m_nestedLevel env w + 1)).
Proof.
  intros Hp. split; intros Hauto Hfail;
    unfold beginNestedTransaction, beginTransaction, preIncrementNestedLevel;
    run_monad; rewrite Hp;
    destruct (Z.eqb_spec (sqlite3_get_autocommit env p (db env w)) 0)
      as [H0|H0]; try contradiction; cbn [negb];
    match goal with
    | |- context [execute env ?sql ?w1] =>
        destruct (execute_post env w1 p sql)
          as (b & w' & Hrun & Hsame & _ & Hb); [exact Hp|]
    end;
    rewrite Hrun; apply Hb in Hfail; subst b; exists w';
    (split; [reflexivity|]); unfold sameConnection in Hsame; cbn in Hsame;
    tauto.
Qed.

(** X9. The depth is never negative and never exceeds the number of begins:
    from depth 0, after any sequence of transaction calls, the depth lies
    between 0 and the number of [beginNestedTransaction] calls made. *)
Theorem depth_stays_within_the_begins (w : World env) p (cs : list Call) :
  m_handle env w = Some p ->
  m_nestedLevel env w = 0 ->
  Z.of_nat (countBegins cs) <= INT_MAX ->
  exists w',
    calls env cs w = Some (tt, w') /\
    0 <= m_nestedLevel env w' <= Z.of_nat (countBegins cs).
Proof.
  intros Hp Hl Hcount.
  assert (Hgen : forall cs (w : World env) (k : Z),
    m_handle env w = Some p ->
    0 <= m_nestedLevel env w <= k ->
    k + Z.of_nat (countBegins cs) <= INT_MAX ->
    exists w',
      calls env cs w = Some (tt, w') /\
      0 <= m_nestedLevel env w' <= k + Z.of_nat (countBegins cs)).
  { clear. intros cs. induction cs as [|c cs IH]; intros w k Hp Hl Hk.
    - exists w. cbn. split; [reflexivity|lia].
    - destruct c as [|c].
      + cbn [countBegins] in Hk |- *.
        destruct (beginNestedTransaction_post env w p Hp)
          as (b & w1 & Hrun & Hp1 & _ & _ & Hout & Hin).
        assert (Hl1 : 0 <= m_nestedLevel env w1 <= k + 1).
        { destruct (Z.eq_dec (sqlite3_get_autocommit env p (db env w)) 0)
            as [H0|H0].
          - destruct (Hin H0) as [-> _]. rewrite wrap_int_small; [lia|].
            unfold in_int, INT_MIN, INT_MAX in *. lia.
          - destruct (Hout H0) as [-> _]. lia. }
        destruct (IH w1 (k + 1) Hp1 Hl1) as (w2 & Hrun2 & Hl2); [lia|].
        exists w2. cbn [calls call]. run_monad. rewrite Hrun.
        split; [exact Hrun2|lia].
      + cbn [countBegins] in Hk |- *.
        destruct (endCall_post env c w p Hp) as (w1 & Hrun & Hp1 & Hl1).
        assert (Hl1' : 0 <= m_nestedLevel env w1 <= k).
        { rewrite Hl1. destruct (Z.eqb_spec (m_nestedLevel env w) 0); [lia|].
          rewrite wrap_int_small; [lia|].
          unfold in_int, INT_MIN, INT_MAX in *. lia. }
        destruct (IH w1 k Hp1 Hl1') as (w2 & Hrun2 & Hl2); [lia|].
        exists w2. cbn [calls call]. run_monad. rewrite Hrun.
        split; [exact Hrun2|lia]. }
  destruct (Hgen cs w 0 Hp) as (w' & Hrun & Hl'); [lia|lia|].
  exists w'. split; [exact Hrun|lia].
Qed.

End MoreConnection.

(** X7. The savepoints of two different depths have different names. *)
Theorem savepoint_names_are_distinct (l1 l2 : Z) :
  l1 <> l2 -> savepointName l1 <> savepointName l2.
Proof.
  unfold savepointName, to_string. intros Hne H. apply Hne.
  apply (String.app_inj savepointPrefix) in H.
  exact (pretty_Z_inj _ _ H).
Qed.

(** * Further properties of the statement pool *)

Section MorePool.

Context (env : Env).

#[local] Arguments error : simpl never.
#[local] Arguments execute : simpl never.
#[local] Arguments rollbackTransaction : simpl never.

Ltac run_ops :=
  cbv beta iota delta
    [mbind mret M_bind M_ret get modify assertionFailure openedHandle
     notify getExtendedErrorCode getErrorMessage getResultCode
     isInTransaction markErrorAsIgnorable markErrorAsUnignorable
     getStatement returnStatement viaPointer
     HandleStatement_prepare HandleStatement_step HandleStatement_step_done
     HandleStatement_finalize HandleStatement_getText].

Lemma lookupStatement_None a (l : list (nat * HandleStatement)) :
  lookupStatement a l = None <-> ~ In a (map fst l).
Proof.
  induction l as [|[b hs] l IH]; cbn.
  - tauto.
  - destruct (Nat.eqb_spec a b) as [->|Hne].
    + split; [discriminate|]. intros H. exfalso. apply H. left. reflexivity.
    + rewrite IH. split; [intros H [Heq|Hin]; [congruence|auto]|tauto].
Qed.

Lemma lookupStatement_eraseStatement_ne a b (l : list (nat * HandleStatement)) :
  b <> a ->
  lookupStatement b (eraseStatement a l) = lookupStatement b l.
Proof.
  intros Hne. induction l as [|[c hs] l IH]; cbn; [reflexivity|].
  destruct (Nat.eqb_spec a c) as [->|Hac]; cbn.
  - destruct (Nat.eqb_spec b c); [contradiction|reflexivity].
  - rewrite IH. reflexivity.
Qed.

Lemma eraseStatement_absent a (l : list (nat * HandleStatement)) :
  lookupStatement a l = None -> eraseStatement a l = l.
Proof.
  induction l as [|[c hs] l IH]; cbn; [reflexivity|].
  destruct (Nat.eqb a c); [discriminate|]. intros H. rewrite IH by exact H.
  reflexivity.
Qed.

Lemma eraseStatement_length a hs (l : list (nat * HandleStatement)) :
  lookupStatement a l = Some hs ->
  S (length (eraseStatement a l)) = length l.
Proof.
  induction l as [|[c hs0] l IH]; cbn; [discriminate|].
  destruct (Nat.eqb a c); [reflexivity|]. intros H. cbn. rewrite IH by exact H.
  reflexivity.
Qed.

Lemma eraseStatement_NoDup a (l : list (nat * HandleStatement)) :
  NoDup (map fst l) ->
  NoDup (map fst (eraseStatement a l)) /\
  lookupStatement a (eraseStatement a l) = None.
Proof.
  induction l as [|[c hs] l IH]; cbn; intros Hnd.
  - split; [constructor|reflexivity].
  - apply NoDup_cons in Hnd as [Hc Hnd]. destruct (IH Hnd) as [IH1 IH2].
    destruct (Nat.eqb_spec a c) as [->|Hac]; cbn.
    + split; [exact Hnd|]. apply lookupStatement_None.
      intros Hin. apply Hc. apply list_elem_of_In. exact Hin.
    + destruct (Nat.eqb_spec a c) as [|_]; [contradiction|].
      split; [|exact IH2]. apply NoDup_cons. split; [|exact IH1].
      intros Hin. apply Hc. apply list_elem_of_In in Hin.
      apply list_elem_of_In. apply in_map_iff in Hin as ([d hd] & Hd & Hin).
      cbn in Hd. subst d. apply in_map_iff. exists (c, hd). split; [reflexivity|].
      clear -Hin Hac. induction l as [|[e he] l IHl]; cbn in *; [contradiction|].
      destruct (Nat.eqb_spec a e) as [->|Hae]; [right; exact Hin|].
      destruct Hin as [Heq|Hin]; [left; exact Heq|right; exact (IHl Hin)].
Qed.

Lemma In_eraseStatement a x (l : list (nat * HandleStatement)) :
  In x (eraseStatement a l) -> In x l.
Proof.
  induction l as [|[c hs] l IH]; cbn; [tauto|].
  destruct (Nat.eqb a c); [tauto|]. cbn. intros [H|H]; [left; exact H|].
  right. exact (IH H).
Qed.

(** X10. Taking a statement and returning it leaves the pool as it was;
    returning the null pointer, or a statement that is not in the pool,
    changes nothing. *)
Theorem statement_taken_and_returned (w : World env) :
  addressesFresh w ->
  (a ← getStatement env; returnStatement env (Some a)) w =
    Some (tt, set_next_address env (S (next_address env w)) w) /\
  returnStatement env None w = Some (tt, w) /\
  (forall a,
     lookupStatement a (m_handleStatements env w) = None ->
     returnStatement env (Some a) w = Some (tt, w)).
Proof.
  unfold addressesFresh. intros Hfresh. destruct w as [h err lvl mask pool ntf e sink next].
  cbn in Hfresh. split; [|split].
  - run_ops. cbn. rewrite (eraseStatement_fresh next _ pool Hfresh).
    reflexivity.
  - reflexivity.
  - intros a Ha. cbn in Ha. run_ops. cbn. rewrite (eraseStatement_absent a pool Ha).
    reflexivity.
Qed.

(** X11. Returning a statement takes that statement out of the pool and no
    other: every other statement is still found, with the state it had; the
    pool shrinks by one; and, the addresses of the pool being distinct, the
    statement returned is found no more. *)
Theorem returnStatement_removes_only_that_statement
    (w : World env) (a : nat) (hs : HandleStatement) :
  lookupStatement a (m_handleStatements env w) = Some hs ->
  exists w',
    returnStatement env (Some a) w = Some (tt, w') /\
    (forall b, b <> a ->
       lookupStatement b (m_handleStatements env w') =
       lookupStatement b (m_handleStatements env w)) /\
    S (length (m_handleStatements env w')) = length (m_handleStatements env w) /\
    (NoDup (map fst (m_handleStatements env w)) ->
     lookupStatement a (m_handleStatements env w') = None).
Proof.
  intros Ha. eexists. split; [reflexivity|]. cbn. split; [|split].
  - intros b Hb. apply lookupStatement_eraseStatement_ne. exact Hb.
  - exact (eraseStatement_length a hs _ Ha).
  - intros Hnd. exact (proj2 (eraseStatement_NoDup a _ Hnd)).
Qed.

(** X12. The pool keeps its addresses distinct: in a well-formed pool
    [getStatement] hands out an address that no statement of the pool has,
    for a statement that is not prepared, and leaves the other statements
    as they were; [getStatement] and [returnStatement] keep the pool
    well-formed, and in a well-formed pool the next address is free. *)
Theorem pool_addresses_stay_distinct (w : World env) :
  poolWellFormed w ->
  addressesFresh w /\
  (exists a w',
     getStatement env w = Some (a, w') /\
     lookupStatement a (m_handleStatements env w) = None /\
     lookupStatement a (m_handleStatements env w') = Some {| m_stmt := None |} /\
     (forall b, b <> a ->
        lookupStatement b (m_handleStatements env w') =
        lookupStatement b (m_handleStatements env w)) /\
     poolWellFormed w') /\
  (forall handleStatement,
     exists w',
       returnStatement env handleStatement w = Some (tt, w') /\
       poolWellFormed w').
Proof.
  unfold poolWellFormed, addressesFresh. intros [Hnd Hlt].
  assert (Hfresh :
    lookupStatement (next_address env w) (m_handleStatements env w) = None).
  { apply lookupStatement_None. intros Hin.
    apply in_map_iff in Hin as (x & Hx & Hin).
    rewrite Forall_forall in Hlt. specialize (Hlt x (proj2 (list_elem_of_In _ _) Hin)). lia. }
  split; [exact Hfresh|]. split.
  - eexists _, _. split; [reflexivity|]. cbn. split; [exact Hfresh|].
    split; [apply lookupStatement_fresh; exact Hfresh|]. split.
    + intros b Hb. induction (m_handleStatements env w) as [|[c hs] l IH]; cbn.
      * destruct (Nat.eqb_spec b (next_address env w)); [contradiction|reflexivity].
      * destruct (Nat.eqb b c); [reflexivity|]. apply IH.
        -- inversion Hnd; assumption.
        -- inversion Hlt; assumption.
        -- cbn in Hfresh. destruct (Nat.eqb (next_address env w) c);
             [discriminate|exact Hfresh].
    + split.
      * rewrite map_app. cbn. apply NoDup_app. split; [exact Hnd|].
        split; [|apply NoDup_singleton].
        intros x Hx Hx'. apply list_elem_of_singleton in Hx'. subst x.
        apply lookupStatement_None in Hfresh. apply Hfresh.
        apply list_elem_of_In. exact Hx.
      * apply Forall_app. split.
        -- eapply Forall_impl; [exact Hlt|]. cbn. intros x Hx. lia.
        -- constructor; [cbn; lia|constructor].
  - intros [a|].
    + eexists. split; [reflexivity|]. cbn. split.
      * exact (proj1 (eraseStatement_NoDup a _ Hnd)).
      * rewrite Forall_forall in Hlt |- *. intros x Hx. apply Hlt.
        apply list_elem_of_In. apply list_elem_of_In in Hx.
        exact (In_eraseStatement a x _ Hx).
    + exists w. split; [reflexivity|]. split; assumption.
Qed.


(** X13. [tableExists] returns the statement it took and restores what it
    marked: whatever the engine answers, the pool and the depth are as
    before and no code is marked afterwards; and the table is never
    reported present by a probe reported as failed. *)
Theorem tableExists_leaves_no_trace (w : World env) p (table : string) :
  m_handle env w = Some p ->
  addressesFresh w ->
  compilesProperly p (db env w) (StatementSelect_select1_from_limit0 table) ->
  exists succeeded present w',
    tableExists env table w = Some ((succeeded, present), w') /\
    m_handleStatements env w' = m_handleStatements env w /\
    m_nestedLevel env w' = m_nestedLevel env w /\
    m_codeToBeIgnored env w' = SQLITE_OK /\
    m_handle env w' = Some p /\
    (present = true -> succeeded = true).
Proof.
  intros Hp Hfresh Hproper. unfold addressesFresh, compilesProperly in *.
  destruct w as [h err lvl mask pool ntf e sink next].
  cbn in Hp, Hfresh, Hproper. subst h.
  unfold tableExists. run_ops. cbn.
  rewrite (lookupStatement_fresh next _ pool Hfresh). cbn.
  destruct (sqlite3_prepare_v2 env p
              (getDescription env (StatementSelect_select1_from_limit0 table)) e)
    as [[rc stmt] e'].
  destruct (Z.eqb_spec rc SQLITE_OK) as [->|Hrc]; cbn.
  - destruct (Hproper stmt e' eq_refl) as (s & -> & Hrow & Hok).
    rewrite (storeStatement_fresh next _ _ pool Hfresh).
    rewrite (lookupStatement_fresh next _ pool Hfresh). cbn.
    destruct (sqlite3_step s) as [rc2 s'] eqn:Hstep.
    destruct ((rc2 =? SQLITE_ROW) || (rc2 =? SQLITE_DONE)) eqn:Hgood; cbn.
    + rewrite (storeStatement_fresh next _ _ pool Hfresh).
      rewrite (lookupStatement_fresh next _ pool Hfresh). cbn.
      rewrite (storeStatement_fresh next _ _ pool Hfresh).
      rewrite (eraseStatement_fresh next _ pool Hfresh).
      eexists _, _, _. split; [reflexivity|]. cbn. auto 10.
    + assert (Hrc2 : rc2 <> SQLITE_OK).
      { unfold sqlite3_step in Hstep.
        destruct (stmt_pending s); injection Hstep as <- _;
          [exact Hok|discriminate]. }
      match goal with
      | |- context [error env rc2 ?sql ?w1] =>
          destruct (error_sameHandle env w1 p rc2 sql)
            as (b & w2 & Herr & Hsame & Hpool & Hdb);
            [reflexivity|exact Hrc2|]
      end.
      rewrite Herr. cbn. rewrite Hpool. cbn.
      rewrite (storeStatement_fresh next _ _ pool Hfresh).
      rewrite (lookupStatement_fresh next _ pool Hfresh). cbn.
      rewrite (storeStatement_fresh next _ _ pool Hfresh).
      rewrite (eraseStatement_fresh next _ pool Hfresh).
      unfold sameHandle in Hsame. cbn in Hsame.
      destruct Hsame as (Hh & Hl & _ & _).
      rewrite Hh. cbn.
      eexists _, _, _. split; [reflexivity|]. cbn.
      repeat split; try assumption; discriminate.
  - match goal with
    | |- context [error env rc ?sql ?w1] =>
        destruct (error_sameHandle env w1 p rc sql)
          as (b & w2 & Herr & Hsame & Hpool & Hdb);
          [reflexivity|exact Hrc|]
    end.
    rewrite Herr. cbn. rewrite Hpool. cbn.
    rewrite (storeStatement_fresh next _ _ pool Hfresh).
    rewrite (eraseStatement_fresh next _ pool Hfresh).
    unfold sameHandle in Hsame. cbn in Hsame.
    destruct Hsame as (Hh & Hl & _ & _).
    rewrite Hh. cbn.
    eexists _, _, _. split; [reflexivity|]. cbn.
    repeat split; try assumption; discriminate.
Qed.

(** X14. A probe the engine refuses with a code other than [SQLITE_ERROR]
    is a failed probe, not an absent table: [tableExists] returns
    (false, false), and the refusal is notified with Error severity and
    kept as the handle's error. *)
Theorem tableExists_reports_a_refused_probe
    (w : World env) p (table : string) :
  let probe :=
    sqlite3_prepare_v2 env p
      (getDescription env (StatementSelect_select1_from_limit0 table))
      (db env w) in
  let rc := fst (fst probe) in
  m_handle env w = Some p ->
  addressesFresh w ->
  rc <> SQLITE_OK ->
  rc <> SQLITE_ERROR ->
  sqlite3_errcode env p (snd probe) = rc ->
  exists e w',
    tableExists env table w = Some ((false, false), w') /\
    notifier env w' = notifier env w ++ [e] /\
    code e = rc /\ level e = LevelError /\ m_error env w' = e.
Proof.
  intros probe rc Hp Hfresh Hok Herror Hcode. unfold addressesFresh in *.
  subst rc probe.
  destruct w as [h err lvl mask pool ntf e sink next].
  cbn in Hp, Hfresh, Hok, Herror, Hcode. subst h.
  unfold tableExists. run_ops. cbn.
  rewrite (lookupStatement_fresh next _ pool Hfresh). cbn.
  destruct (sqlite3_prepare_v2 env p
              (getDescription env (StatementSelect_select1_from_limit0 table)) e)
    as [[rc stmt] e']. cbn in Hok, Herror, Hcode.
  destruct (Z.eqb_spec rc SQLITE_OK) as [|_]; [contradiction|]. cbn.
  rewrite (error_eq env _ p rc) by (reflexivity || exact Hok).
  assert (Hhard : nonIgnorable SQLITE_ERROR rc = true).
  { unfold nonIgnorable. cbn.
    destruct (Z.eqb_spec rc SQLITE_ERROR); [contradiction|reflexivity]. }
  cbn in Hhard |- *. rewrite Hhard. cbn.
  rewrite (storeStatement_fresh next _ _ pool Hfresh).
  rewrite (eraseStatement_fresh next _ pool Hfresh).
  rewrite Hcode.
  destruct (Z.eqb_spec rc SQLITE_ERROR) as [|_]; [contradiction|].
  eexists _, _. split; [reflexivity|]. cbn.
  split; [reflexivity|]. split; [reflexivity|]. split; [|reflexivity].
  rewrite classified_level. cbn.
  destruct (Z.eqb_spec rc SQLITE_ERROR); [contradiction|reflexivity].
Qed.


(** The loop of [getValues] on a statement whose run ends: it collects the
    column of every row, and a run that ends in a failure is notified once. *)
Lemma getValues_loop_exact (turns : nat) :
  forall (w : World env) p l a s index values,
    m_handle env w = Some p ->
    m_handleStatements env w = l ++ [(a, {| m_stmt := Some s |})] ->
    lookupStatement a l = None ->
    runEnds s ->
    (length (stmt_pending s) < turns)%nat ->
    exists s' w',
      getValues_loop env turns a index values w =
        Some ((stmt_final s =? SQLITE_DONE,
               values ∪ list_to_set (map (columnText index) (stmt_pending s))),
              w') /\
      sameHandle w w' /\
      m_handleStatements env w' = l ++ [(a, {| m_stmt := Some s' |})] /\
      (stmt_final s = SQLITE_DONE ->
       notifier env w' = notifier env w /\ m_error env w' = m_error env w) /\
      (stmt_final s <> SQLITE_DONE ->
       exists e,
         notifier env w' = notifier env w ++ [e] /\
         code e = stmt_final s /\
         infos e !! "SQL"%string = Some (stmt_sql s) /\
         level e =
           (if nonIgnorable (m_codeToBeIgnored env w) (stmt_final s)
            then LevelError else LevelIgnore)).
Proof.
  induction turns as [|turns IH]; intros w p l a s index values
    Hp Hpool Hfresh Hends Hlen; [lia|].
  cbn [getValues_loop]. run_ops.
  rewrite Hpool, (lookupStatement_fresh a _ l Hfresh). cbn [m_stmt].
  unfold sqlite3_step. destruct (stmt_pending s) as [|r rest] eqn:Hrows.
  - destruct Hends as [Hrow Hok].
    assert (Hempty : values ∪ ∅ = values) by apply (right_id_L ∅ (∪)).
    destruct (Z.eqb_spec (stmt_final s) SQLITE_ROW) as [|_]; [contradiction|].
    destruct (Z.eqb_spec (stmt_final s) SQLITE_DONE) as [Hdone|Hdone]; cbn.
    + rewrite Hpool, (storeStatement_fresh a _ _ l Hfresh).
      rewrite Hempty.
      eexists _, _. split; [reflexivity|].
      unfold sameHandle. cbn. repeat split; try reflexivity. contradiction.
    + rewrite (error_eq env _ p (stmt_final s)) by (cbn; assumption).
      cbn.
      destruct (nonIgnorable (m_codeToBeIgnored env w) (stmt_final s)) eqn:Hn;
        cbn; rewrite Hpool, (storeStatement_fresh a _ _ l Hfresh);
        rewrite Hempty;
        eexists _, _; (split; [reflexivity|]);
        unfold sameHandle; cbn; repeat split; try reflexivity;
        try contradiction; intros _; eexists; (split; [reflexivity|]);
        cbn; rewrite Hn; repeat split; apply lookup_insert_eq.
  - cbn. rewrite Hpool, (storeStatement_fresh a _ _ l Hfresh).
    rewrite (lookupStatement_fresh a _ l Hfresh). cbn.
    rewrite (storeStatement_fresh a _ _ l Hfresh).
    match goal with
    | |- context [getValues_loop env turns a index ?v ?w1] =>
        destruct (IH w1 p l a
                    {| stmt_sql := stmt_sql s; stmt_row := r;
                       stmt_pending := rest; stmt_final := stmt_final s |}
                    index v)
          as (s' & w' & Hrun & Hsame & Hpool' & Hquiet & Hloud)
    end; try assumption; try reflexivity.
    + cbn in Hlen |- *. lia.
    + rewrite Hrun. cbn [stmt_final stmt_pending stmt_sql] in *.
      match goal with
      | |- context [Some (_, ?v1 ∪ ?v2, _)] =>
          replace (v1 ∪ v2)
            with (values ∪ list_to_set (map (columnText index) (r :: rest)))
            by (unfold columnText; cbn; apply (assoc_L (∪)))
      end.
      eexists _, _. split; [reflexivity|].
      split; [unfold sameHandle in *; cbn in *; intuition congruence|].
      split; [exact Hpool'|]. split; [exact Hquiet|exact Hloud].
Qed.

#[local] Arguments getValues_loop : simpl never.

Lemma getValues_exact (w : World env) p statement index s e' :
  m_handle env w = Some p ->
  addressesFresh w ->
  sqlite3_prepare_v2 env p (getDescription env statement) (db env w) =
    (SQLITE_OK, Some s, e') ->
  runEnds s ->
  exists w',
    getValues env statement index w =
      Some ((stmt_final s =? SQLITE_DONE,
             if stmt_final s =? SQLITE_DONE
             then list_to_set (map (columnText index) (stmt_pending s))
             else ∅), w') /\
    m_handleStatements env w' = m_handleStatements env w /\
    m_codeToBeIgnored env w' = m_codeToBeIgnored env w /\
    (stmt_final s = SQLITE_DONE ->
     notifier env w' = notifier env w /\ m_error env w' = m_error env w) /\
    (stmt_final s <> SQLITE_DONE ->
     exists e,
       notifier env w' = notifier env w ++ [e] /\
       code e = stmt_final s /\
       infos e !! "SQL"%string = Some (stmt_sql s) /\
       level e =
         (if nonIgnorable (m_codeToBeIgnored env w) (stmt_final s)
          then LevelError else LevelIgnore)).
Proof.
  intros Hp Hfresh Hprep Hends. unfold addressesFresh in *.
  destruct w as [h err lvl mask pool ntf e sink next].
  cbn in Hp, Hfresh, Hprep. subst h. unfold getValues. run_ops. cbn.
  rewrite (lookupStatement_fresh next _ pool Hfresh). cbn.
  rewrite Hprep. cbn.
  rewrite (storeStatement_fresh next _ _ pool Hfresh).
  rewrite (lookupStatement_fresh next _ pool Hfresh). cbn.
  rewrite (storeStatement_fresh next _ _ pool Hfresh).
  match goal with
  | |- context [getValues_loop env ?t next index ?v ?w1] =>
      destruct (getValues_loop_exact t w1 p pool next s index v)
        as (s' & w' & Hrun & Hsame & Hpool & Hquiet & Hloud)
  end; try assumption; try reflexivity; [lia|].
  rewrite Hrun. cbn.
  rewrite Hpool, (lookupStatement_fresh next _ pool Hfresh). cbn.
  rewrite Hpool, (storeStatement_fresh next _ _ pool Hfresh).
  rewrite (eraseStatement_fresh next _ pool Hfresh).
  unfold sameHandle in Hsame. cbn in Hsame, Hquiet, Hloud.
  replace (∅ ∪ list_to_set (map (columnText index) (stmt_pending s)))
    with (list_to_set (C := gset string) (map (columnText index) (stmt_pending s)))
    by (symmetry; apply (left_id_L ∅ (∪))).
  eexists. split.
  { destruct (stmt_final s =? SQLITE_DONE); reflexivity. }
  cbn. repeat split; try tauto.
Qed.

(** X15. When the statement compiles and its run ends with [SQLITE_DONE],
    [getValues] returns true with the set of the texts that the rows hold
    in the column asked for; nothing is notified and the pool is as before. *)
Theorem getValues_collects_the_column
    (w : World env) p (statement : Statement) (index : Z) s e' :
  m_handle env w = Some p ->
  addressesFresh w ->
  sqlite3_prepare_v2 env p (getDescription env statement) (db env w) =
    (SQLITE_OK, Some s, e') ->
  stmt_final s = SQLITE_DONE ->
  exists w',
    getValues env statement index w =
      Some ((true, list_to_set (map (columnText index) (stmt_pending s))), w') /\
    notifier env w' = notifier env w /\
    m_handleStatements env w' = m_handleStatements env w.
Proof.
  intros Hp Hfresh Hprep Hdone.
  destruct (getValues_exact w p statement index s e' Hp Hfresh Hprep)
    as (w' & Hrun & Hpool & _ & Hquiet & _).
  { unfold runEnds. rewrite Hdone. split; discriminate. }
  rewrite Hdone in Hrun. cbn in Hrun.
  exists w'. split; [exact Hrun|]. split; [apply Hquiet; exact Hdone|exact Hpool].
Qed.

(** X16. When the run of the statement ends with a failure code, [getValues]
    returns (false, empty) however many rows were delivered, and the failure
    is notified once, with that code and the text of the statement, under
    the mask of the caller. *)
Theorem getValues_reports_an_interrupted_run
    (w : World env) p (statement : Statement) (index : Z) s e' :
  m_handle env w = Some p ->
  addressesFresh w ->
  sqlite3_prepare_v2 env p (getDescription env statement) (db env w) =
    (SQLITE_OK, Some s, e') ->
  stmt_final s <> SQLITE_DONE ->
  stmt_final s <> SQLITE_ROW ->
  stmt_final s <> SQLITE_OK ->
  exists e w',
    getValues env statement index w = Some ((false, ∅), w') /\
    notifier env w' = notifier env w ++ [e] /\
    code e = stmt_final s /\
    infos e !! "SQL"%string = Some (stmt_sql s) /\
    level e =
      (if nonIgnorable (m_codeToBeIgnored env w) (stmt_final s)
       then LevelError else LevelIgnore).
Proof.
  intros Hp Hfresh Hprep Hdone Hrow Hok.
  destruct (getValues_exact w p statement index s e' Hp Hfresh Hprep)
    as (w' & Hrun & _ & _ & _ & Hloud); [split; assumption|].
  destruct (Z.eqb_spec (stmt_final s) SQLITE_DONE) as [|_]; [contradiction|].
  destruct (Hloud Hdone) as (e & Hsink & Hrest).
  exists e, w'. split; [exact Hrun|]. split; [exact Hsink|exact Hrest].
Qed.

(** X17. [finalizeStatements] on a pool in which no statement is prepared
    changes nothing and reports nothing; and running it twice is running
    it once. *)
Theorem finalizeStatements_on_a_clean_pool (w : World env) :
  (Forall (fun x => isPrepared (snd x) = false) (m_handleStatements env w) ->
   finalizeStatements env w = Some (tt, w)) /\
  (finalizeStatements env ;; finalizeStatements env) w =
    finalizeStatements env w.
Proof.
  assert (Hclean : forall l (e : engine env) sink,
    Forall (fun x => isPrepared (snd x) = false) l ->
    finalizedPool l = l /\ finalizedDb l e = e /\
    leftoverReports env l sink = sink).
  { induction l as [|[a [[s|]]] l IH]; intros e sink Hall; cbn.
    - auto.
    - inversion Hall; discriminate.
    - inversion Hall as [|? ? _ Hl]; subst.
      destruct (IH e sink Hl) as (H1 & H2 & H3).
      unfold finalizedPool, finalizedDb, leftoverReports in *. cbn.
      rewrite H1, H2, H3. auto. }
  assert (Hrun : forall w : World env,
    finalizeStatements env w =
    Some (tt,
          set_m_handleStatements env (finalizedPool (m_handleStatements env w))
            (set_notifier env
               (leftoverReports env (m_handleStatements env w) (notifier env w))
               (set_db env (finalizedDb (m_handleStatements env w) (db env w))
                  w)))).
  { intros w0. unfold finalizeStatements.
    cbv beta iota delta [mbind mret M_bind M_ret get modify].
    rewrite finalizeEach_eq. reflexivity. }
  split.
  - intros Hall. rewrite Hrun.
    destruct (Hclean _ (db env w) (notifier env w) Hall) as (-> & -> & ->).
    destruct w. reflexivity.
  - cbv beta iota delta [mbind M_bind]. rewrite (Hrun w).
    rewrite Hrun.
    cbn [m_handleStatements notifier db set_m_handleStatements set_notifier
         set_db].
    destruct (Hclean (finalizedPool (m_handleStatements env w))
                (finalizedDb (m_handleStatements env w) (db env w))
                (leftoverReports env (m_handleStatements env w) (notifier env w))
                (finalizedPool_unprepared _)) as (-> & -> & ->).
    reflexivity.
Qed.

Lemma close_leaves_closed (w w' : World env) :
  close env w = Some (tt, w') -> m_handle env w' = None.
Proof.
  unfold close. intros Hrun.
  apply bind_Some_inv in Hrun as (h & w0 & Hget & Hrun).
  cbv beta iota delta [get] in Hget. injection Hget as <- <-.
  destruct (m_handle env w) as [p|] eqn:Hp.
  - repeat (apply bind_Some_inv in Hrun as (? & ? & ? & Hrun)).
    match goal with
    | H : modify env (set_m_handle env None) _ = Some _ |- _ =>
        cbv beta iota delta [modify] in H; injection H as _ <-
    end.
    cbv beta iota delta [modify] in Hrun. injection Hrun as <-. reflexivity.
  - cbv beta iota delta [mret M_ret] in Hrun. injection Hrun as <-. exact Hp.
Qed.

(** X18. Closing twice is closing once. *)
Theorem close_is_idempotent (w : World env) :
  (close env ;; close env) w = close env w.
Proof.
  cbv beta iota delta [mbind M_bind].
  destruct (close env w) as [[[] w']|] eqn:Hrun; [|reflexivity].
  pose proof (close_leaves_closed w w' Hrun) as Hnull.
  unfold close. cbv beta iota delta [mbind mret M_bind M_ret get].
  rewrite Hnull. reflexivity.
Qed.

End MorePool.

(** * Opening the connection and naming its file *)

Section MoreLifecycle.

Context (env : Env) (more : EngineMore env).

#[local] Arguments error : simpl never.
#[local] Arguments execute : simpl never.
#[local] Arguments rollbackTransaction : simpl never.

Ltac run_open :=
  cbv beta iota delta
    [open onMembers open_at mbind mret M_bind M_ret get modify].

(** X19. [open] is idempotent: on an opened connection it returns true and
    changes nothing, without asking the engine; and after an [open] that
    the engine accepted the connection is opened on the handle the engine
    gave, nothing has been notified, and a second [open] changes nothing. *)
Theorem open_is_idempotent (h : Handle env) :
  (m_handle env (members h) <> None -> open env more h = Some (true, h)) /\
  (forall p e',
     m_handle env (members h) = None ->
     sqlite3_open more (m_path h) (db env (members h)) =
       (SQLITE_OK, Some p, e') ->
     exists h',
       open env more h = Some (true, h') /\
       m_handle env (members h') = Some p /\
       db env (members h') = e' /\
       m_path h' = m_path h /\
       notifier env (members h') = notifier env (members h) /\
       m_nestedLevel env (members h') = m_nestedLevel env (members h) /\
       open env more h' = Some (true, h')).
Proof.
  destruct h as [path w]. cbn [members m_path]. split.
  - intros Hopen. run_open. cbn [members m_path].
    destruct (m_handle env w); [reflexivity|contradiction].
  - intros p e' Hclosed Hengine. run_open. cbn [members m_path].
    rewrite Hclosed, Hengine. cbn.
    eexists. split; [reflexivity|]. cbn. repeat split.
Qed.

(** X20. An [open] that the engine refuses while handing back a connection
    notifies the refusal and reports it, but keeps the connection: the
    handle is opened afterwards, and a second [open] returns true without
    asking the engine again. *)
Theorem refused_open_keeps_the_connection (h : Handle env) p rc e' :
  m_handle env (members h) = None ->
  sqlite3_open more (m_path h) (db env (members h)) = (rc, Some p, e') ->
  rc <> SQLITE_OK ->
  exists b e h',
    open env more h = Some (b, h') /\
    b = negb (nonIgnorable (m_codeToBeIgnored env (members h)) rc) /\
    notifier env (members h') = notifier env (members h) ++ [e] /\
    code e = rc /\
    m_handle env (members h') = Some p /\
    isOpened env (members h') = Some (true, members h') /\
    open env more h' = Some (true, h').
Proof.
  destruct h as [path w]. cbn [members m_path].
  intros Hclosed Hengine Hrc. run_open. cbn [members m_path].
  rewrite Hclosed, Hengine.
  destruct (Z.eqb_spec rc SQLITE_OK) as [|_]; [contradiction|]. cbn [negb].
  rewrite (error_eq env _ p rc) by (reflexivity || exact Hrc).
  cbn [m_codeToBeIgnored set_m_handle set_db].
  destruct (nonIgnorable (m_codeToBeIgnored env w) rc);
    eexists _, _, _; (split; [reflexivity|]); cbn; repeat split.
Qed.

(** X21. The path can be set only before the connection is opened: on an
    opened connection [setPath] leaves the path and the handle's error as
    they were; on a closed one the path is the new one, and it is filed
    under "Path" in the handle's error. *)
Theorem setPath_only_before_open (h : Handle env) (path : string) :
  (m_handle env (members h) <> None ->
   getPath env (setPath env path h) = getPath env h /\
   m_error env (members (setPath env path h)) = m_error env (members h)) /\
  (m_handle env (members h) = None ->
   getPath env (setPath env path h) = path /\
   infos (m_error env (members (setPath env path h))) !! "Path"%string =
     Some path /\
   notifier env (members (setPath env path h)) = notifier env (members h)).
Proof.
  destruct h as [old w]. unfold setPath, getPath. cbn [members m_path].
  split; intros Hh.
  - destruct (m_handle env w); [|contradiction]. cbn. split; reflexivity.
  - rewrite Hh. cbn. split; [reflexivity|]. split; [|reflexivity].
    apply lookup_insert_eq.
Qed.

(** X22. The path set before opening reaches the sink: once the connection
    is opened, the record of every error carries the path under "Path",
    beside the text of the statement under "SQL". *)
Theorem notified_records_carry_the_path
    (h : Handle env) (path : string) p e' (rc : Z) (sql : string) :
  m_handle env (members h) = None ->
  sqlite3_open more path (db env (members h)) = (SQLITE_OK, Some p, e') ->
  rc <> SQLITE_OK ->
  exists h' b e w',
    open env more (setPath env path h) = Some (true, h') /\
    error env rc sql (members h') = Some (b, w') /\
    notifier env w' = notifier env (members h) ++ [e] /\
    infos e !! "Path"%string = Some path /\
    infos e !! "SQL"%string = Some sql.
Proof.
  destruct h as [old w]. cbn [members m_path].
  intros Hclosed Hengine Hrc. unfold setPath. cbn [members m_path].
  rewrite Hclosed. run_open. cbn [members m_path].
  cbn [m_handle set_m_error db]. rewrite Hclosed.
  change (db env (set_m_error env (setInfo "Path" path (m_error env w)) w))
    with (db env w).
  rewrite Hengine. cbn [negb Z.eqb SQLITE_OK]. cbv beta iota.
  set (w1 := set_m_handle env (Some p)
               (set_db env e'
                  (set_m_error env (setInfo "Path" path (m_error env w)) w))).
  exists (mkHandle path w1). cbn [members].
  rewrite (error_eq env w1 p rc sql) by (reflexivity || exact Hrc).
  destruct (nonIgnorable (m_codeToBeIgnored env w1) rc);
    eexists _, _, _; (split; [reflexivity|]); (split; [reflexivity|]);
    (split; [reflexivity|]); unfold classified, w1;
    cbn [infos setInfo setMessage setLevel setSQLiteCode m_error set_m_handle
         set_db set_m_error];
    (split; [rewrite lookup_insert_ne by discriminate; apply lookup_insert_eq
            |apply lookup_insert_eq]).
Qed.



Ltac run_members :=
  cbv beta iota delta
    [mbind mret M_bind M_ret get modify assertionFailure openedHandle
     notify getExtendedErrorCode getErrorMessage getResultCode
     isInTransaction markErrorAsIgnorable markErrorAsUnignorable
     preIncrementNestedLevel].

(** X25. [setCipherKey] hands the key to the engine and reports like
    [execute]: a key the engine accepts gives true and notifies nothing; a
    key it refuses is notified once, with the code of the refusal, and
    gives false exactly when the mask does not cover that code.  The depth,
    the mask and the pool are as before. *)
Theorem setCipherKey_reports_refusals
    (w : World env) p (data : list Byte.byte) :
  m_handle env w = Some p ->
  let rc := fst (sqlite3_key more p data (db env w)) in
  exists b w',
    setCipherKey env more data w = Some (b, w') /\
    db env w' = snd (sqlite3_key more p data (db env w)) /\
    m_nestedLevel env w' = m_nestedLevel env w /\
    m_codeToBeIgnored env w' = m_codeToBeIgnored env w /\
    m_handleStatements env w' = m_handleStatements env w /\
    (rc = SQLITE_OK ->
     b = true /\ notifier env w' = notifier env w /\
     m_error env w' = m_error env w) /\
    (rc <> SQLITE_OK ->
     b = negb (nonIgnorable (m_codeToBeIgnored env w) rc) /\
     exists e, notifier env w' = notifier env w ++ [e] /\ code e = rc /\
               level e = (if b then LevelIgnore else LevelError)).
Proof.
  intros Hp rc. unfold setCipherKey. run_members. rewrite Hp. unfold rc.
  destruct (sqlite3_key more p data (db env w)) as [rc' e'] eqn:Hkey.
  cbn [fst snd].
  destruct (Z.eqb_spec rc' SQLITE_OK) as [->|Hne].
  - eexists. eexists. split; [reflexivity|]. cbn.
    repeat split; intros; congruence.
  - rewrite (error_eq env _ p rc' EmptyString) by (cbn; assumption).
    cbn [m_codeToBeIgnored set_db].
    destruct (nonIgnorable (m_codeToBeIgnored env w) rc') eqn:Hmask.
    + eexists. eexists. split; [reflexivity|]. cbn.
      repeat split; try congruence.
      eexists. split; [reflexivity|]. split; [reflexivity|].
      rewrite classified_level. cbn. rewrite Hmask. reflexivity.
    + eexists. eexists. split; [reflexivity|]. cbn.
      repeat split; try congruence.
      eexists. split; [reflexivity|]. split; [reflexivity|].
      rewrite classified_level. cbn. rewrite Hmask. reflexivity.
Qed.

End MoreLifecycle.

(** * The further properties on the small engine *)

(** X1 on the small engine: [SQLITE_BUSY] was marked, then unmarked. *)
Lemma unmarked_errors_witness :
  exists w',
    (markErrorAsIgnorable Toy.env SQLITE_BUSY ;;
     markErrorAsUnignorable Toy.env ;;
     error Toy.env SQLITE_BUSY "COMMIT") (Toy.opened Toy.idle) =
      Some (false, w').
Proof.
  destruct (unmarked_errors_are_hard Toy.env (Toy.opened Toy.idle) tt
              SQLITE_BUSY SQLITE_BUSY "COMMIT" eq_refl)
    as (e & w' & Hrun & _); [discriminate|].
  exists w'. exact Hrun.
Defined.


(** X3 on the small engine: a commit outside a transaction is refused. *)
Lemma execute_reports_witness :
  exists w' e,
    execute Toy.env "COMMIT" (Toy.opened Toy.idle) = Some (false, w') /\
    notifier Toy.env w' = [e] /\ code e = SQLITE_ERROR.
Proof.
  destruct (execute_reports_engine_failures Toy.env (Toy.opened Toy.idle) tt
              "COMMIT" eq_refl)
    as (b & w' & Hrun & _ & _ & _ & _ & _ & Hrefused).
  destruct Hrefused as (Hb & e & Hsink & Hcode); [vm_compute; discriminate|].
  exists w', e. rewrite Hb in Hrun. auto.
Defined.

(** X4 on the small engine: a rollback outside a transaction is refused by
    the engine, and ignored. *)
Lemma rollback_witness :
  exists w' l,
    rollbackTransaction Toy.env (Toy.opened Toy.idle) = Some (tt, w') /\
    m_error Toy.env w' = Toy.noError /\
    notifier Toy.env w' = l /\
    Forall (fun e => level e = LevelIgnore) l.
Proof.
  destruct (rollback_is_never_a_hard_error Toy.env (Toy.opened Toy.idle) tt
              eq_refl) as [(w' & l & Hrun & Herr & Hsink & Hlevels & _) _].
  exists w', l. auto.
Defined.

(** X5 on the small engine: the commit is refused with [SQLITE_ERROR]. *)
Lemma failed_commit_witness :
  exists w',
    commitOrRollbackTransaction Toy.env Toy.busyMarked = Some (false, w') /\
    code (m_error Toy.env w') = SQLITE_ERROR /\
    level (m_error Toy.env w') = LevelError.
Proof.
  destruct (failed_commit_keeps_the_commit_error Toy.env Toy.busyMarked tt
              eq_refl) as (w' & Hrun & Hcode & Hlevel & _).
  - vm_compute. split; [discriminate|reflexivity].
  - exists w'. auto.
Defined.

(** X6 on the small engine, inside a transaction at depth 0. *)
Lemma begin_and_end_witness :
  exists b1 w1 b2 w2,
    beginNestedTransaction Toy.env (Toy.opened (Toy.inTransaction [])) =
      Some (b1, w1) /\
    m_nestedLevel Toy.env w1 = 1 /\
    commitOrRollbackNestedTransaction Toy.env w1 = Some (b2, w2) /\
    m_nestedLevel Toy.env w2 = 0.
Proof.
  destruct (begin_and_end_share_the_savepoint Toy.env
              (Toy.opened (Toy.inTransaction [])) tt eq_refl eq_refl)
    as (b1 & w1 & Hrun1 & Hl1 & _ & (b2 & w2 & Hrun2 & Hl2 & _) & _).
  - vm_compute. split; [discriminate|reflexivity].
  - exists b1, w1, b2, w2. auto.
Defined.

(** X7 at depths 1 and 2. *)
Lemma savepoint_names_witness : savepointName 1 <> savepointName 2.
Proof. apply savepoint_names_are_distinct. discriminate. Defined.

(** X8 on the small engine: inside a transaction the savepoint is refused. *)
Lemma failed_begin_witness :
  exists w',
    beginNestedTransaction Toy.env
      (Toy.opened
         (Toy.inTransaction [("SAVEPOINT WCDBSavepoint_1"%string, SQLITE_BUSY)])) =
      Some (false, w') /\
    m_nestedLevel Toy.env w' = 1.
Proof.
  destruct (failed_begin_and_the_depth Toy.env
              (Toy.opened
                 (Toy.inTransaction
                    [("SAVEPOINT WCDBSavepoint_1"%string, SQLITE_BUSY)]))
              tt eq_refl) as [_ Hinside].
  destruct Hinside as (w' & Hrun & Hl); [reflexivity| |].
  - vm_compute. split; [discriminate|reflexivity].
  - exists w'. auto.
Defined.

(** X9 on the small engine: more end calls than begins. *)
Lemma depth_within_begins_witness :
  exists w',
    calls Toy.env [Begin; Begin; End Rollback; End CommitOrRollback;
                   End Rollback; Begin] (Toy.opened Toy.idle) = Some (tt, w') /\
    0 <= m_nestedLevel Toy.env w' <= 3.
Proof.
  destruct (depth_stays_within_the_begins Toy.env (Toy.opened Toy.idle) tt
              [Begin; Begin; End Rollback; End CommitOrRollback;
               End Rollback; Begin] eq_refl eq_refl)
    as (w' & Hrun & Hl); [vm_compute; discriminate|].
  exists w'. auto.
Defined.

(** X10 on the small engine. *)
Lemma statement_round_trip_witness :
  (a ← getStatement Toy.env; returnStatement Toy.env (Some a))
    (Toy.opened Toy.idle) =
  Some (tt, set_next_address Toy.env 1%nat (Toy.opened Toy.idle)).
Proof.
  exact (proj1 (statement_taken_and_returned Toy.env (Toy.opened Toy.idle)
                  eq_refl)).
Defined.

(** X11 on a pool of two statements: the second one is returned. *)
Lemma returnStatement_witness :
  exists w',
    returnStatement Toy.env (Some 2%nat) ToyMore.pooled = Some (tt, w') /\
    lookupStatement O (m_handleStatements Toy.env w') =
      Some {| m_stmt := None |} /\
    length (m_handleStatements Toy.env w') = 1%nat.
Proof.
  destruct (returnStatement_removes_only_that_statement Toy.env ToyMore.pooled
              2%nat _ eq_refl) as (w' & Hrun & Hothers & Hlen & _).
  exists w'. split; [exact Hrun|]. split.
  - rewrite (Hothers O) by discriminate. reflexivity.
  - cbn in Hlen. lia.
Defined.

(** X12 on the same pool. *)
Lemma pool_addresses_witness :
  exists a w',
    getStatement Toy.env ToyMore.pooled = Some (a, w') /\
    lookupStatement a (m_handleStatements Toy.env ToyMore.pooled) = None /\
    poolWellFormed w'.
Proof.
  destruct (pool_addresses_stay_distinct Toy.env ToyMore.pooled)
    as (_ & (a & w' & Hrun & Hnew & _ & _ & Hwf) & _).
  - split; cbn.
    + repeat constructor; cbn; intros H; inversion H; subst;
        try discriminate; match goal with H' : _ ∈ [] |- _ => inversion H' end.
    + repeat constructor; cbn; lia.
  - exists a, w'. auto.
Defined.

(** X13 on the small engine, with a code marked by the caller. *)
Lemma tableExists_no_trace_witness :
  exists r w',
    tableExists Toy.env "person" Toy.ignoringAll = Some (r, w') /\
    m_handleStatements Toy.env w' = [] /\
    m_codeToBeIgnored Toy.env w' = SQLITE_OK.
Proof.
  destruct (tableExists_leaves_no_trace Toy.env Toy.ignoringAll tt "person"
              eq_refl eq_refl)
    as (succeeded & present & w' & Hrun & Hpool & _ & Hmask & _).
  - intros stmt e' Hprep. vm_compute in Hprep. injection Hprep as <- _.
    eexists. split; [reflexivity|]. split; discriminate.
  - exists (succeeded, present), w'. auto.
Defined.

(** X14 on the small engine: the probe is refused with [SQLITE_BUSY]. *)
Lemma tableExists_refused_witness :
  exists w',
    tableExists Toy.env "pet"
      (Toy.opened
         (Toy.refusing [("SELECT 1 FROM pet LIMIT 0"%string, SQLITE_BUSY)])) =
      Some ((false, false), w') /\
    level (m_error Toy.env w') = LevelError.
Proof.
  destruct (tableExists_reports_a_refused_probe Toy.env
              (Toy.opened
                 (Toy.refusing
                    [("SELECT 1 FROM pet LIMIT 0"%string, SQLITE_BUSY)]))
              tt "pet" eq_refl eq_refl)
    as (e & w' & Hrun & _ & _ & Hlevel & Herr).
  - vm_compute. discriminate.
  - vm_compute. discriminate.
  - reflexivity.
  - exists w'. rewrite Herr. auto.
Defined.

(** X15 on the small engine: the names of the columns of a table. *)
Lemma getValues_collects_witness :
  exists w',
    getValues Toy.env (StatementPragma_tableInfo "main" "pet") 1
      (Toy.opened Toy.idle) =
    Some ((true, {[ "id"; "owner"; "kind" ]}%string), w').
Proof.
  destruct (getValues_collects_the_column Toy.env (Toy.opened Toy.idle) tt
              (StatementPragma_tableInfo "main" "pet") 1
              {| stmt_sql := "PRAGMA main.table_info(pet)"; stmt_row := [];
                 stmt_pending := [["0"; "id"]; ["1"; "owner"]; ["2"; "kind"]]%string;
                 stmt_final := SQLITE_DONE |}
              Toy.idle eq_refl eq_refl)
    as (w' & Hrun & _); [vm_compute; reflexivity|reflexivity|].
  exists w'. rewrite Hrun. vm_compute. reflexivity.
Defined.

(** X16 on the small engine: the run is cut short with [SQLITE_BUSY]. *)
Lemma getValues_interrupted_witness :
  exists e w',
    getValues Toy.env (StatementPragma_tableInfo "main" "pet") 1
      (Toy.opened
         (Toy.interrupting
            [("PRAGMA main.table_info(pet)"%string, SQLITE_BUSY)])) =
      Some ((false, ∅), w') /\
    notifier Toy.env w' = [e] /\
    code e = SQLITE_BUSY /\ level e = LevelError.
Proof.
  destruct (getValues_reports_an_interrupted_run Toy.env
              (Toy.opened
                 (Toy.interrupting
                    [("PRAGMA main.table_info(pet)"%string, SQLITE_BUSY)]))
              tt (StatementPragma_tableInfo "main" "pet") 1
              {| stmt_sql := "PRAGMA main.table_info(pet)"; stmt_row := [];
                 stmt_pending := [["0"; "id"]; ["1"; "owner"]; ["2"; "kind"]]%string;
                 stmt_final := SQLITE_BUSY |}
              (Toy.interrupting
                 [("PRAGMA main.table_info(pet)"%string, SQLITE_BUSY)])
              eq_refl eq_refl)
    as (e & w' & Hrun & Hsink & Hcode & _ & Hlevel);
    [vm_compute; reflexivity|discriminate|discriminate|discriminate|].
  exists e, w'. auto.
Defined.

(** X17 on the pool of two statements: the first run finalizes, the second
    finds nothing to do. *)
Lemma finalizeStatements_witness :
  (finalizeStatements Toy.env ;; finalizeStatements Toy.env) ToyMore.pooled =
    finalizeStatements Toy.env ToyMore.pooled /\
  finalizeStatements Toy.env (Toy.opened Toy.idle) =
    Some (tt, Toy.opened Toy.idle).
Proof.
  split.
  - exact (proj2 (finalizeStatements_on_a_clean_pool Toy.env ToyMore.pooled)).
  - apply (proj1 (finalizeStatements_on_a_clean_pool Toy.env
                    (Toy.opened Toy.idle))).
    constructor.
Defined.

(** X18 on the small engine. *)
Lemma close_twice_witness :
  (close Toy.env ;; close Toy.env) Toy.unpaired = close Toy.env Toy.unpaired.
Proof. exact (close_is_idempotent Toy.env Toy.unpaired). Defined.

(** X19 on the small engine. *)
Lemma open_witness :
  exists h',
    open Toy.env ToyMore.more (setPath Toy.env "a.db" ToyMore.fresh) =
      Some (true, h') /\
    open Toy.env ToyMore.more h' = Some (true, h').
Proof.
  destruct (open_is_idempotent Toy.env ToyMore.more
              (setPath Toy.env "a.db" ToyMore.fresh)) as [_ Hfirst].
  destruct (Hfirst tt (Toy.set_errcode SQLITE_OK Toy.idle) eq_refl eq_refl)
    as (h' & Hrun & _ & _ & _ & _ & _ & Hagain).
  exists h'. auto.
Defined.

(** X20 on the small engine: the empty path cannot be opened. *)
Lemma refused_open_witness :
  exists h',
    open Toy.env ToyMore.more ToyMore.fresh = Some (false, h') /\
    isOpened Toy.env (members h') = Some (true, members h') /\
    open Toy.env ToyMore.more h' = Some (true, h').
Proof.
  destruct (refused_open_keeps_the_connection Toy.env ToyMore.more
              ToyMore.fresh tt ToyMore.SQLITE_CANTOPEN
              (Toy.set_errcode ToyMore.SQLITE_CANTOPEN Toy.idle)
              eq_refl eq_refl)
    as (b & e & h' & Hrun & Hb & _ & _ & _ & Hopened & Hagain);
    [discriminate|].
  exists h'. rewrite Hb in Hrun. auto.
Defined.

(** X21 on the small engine: before and after opening. *)
Lemma setPath_witness :
  getPath Toy.env (setPath Toy.env "a.db" ToyMore.fresh) = "a.db"%string /\
  getPath Toy.env
    (setPath Toy.env "b.db"
       {| m_path := "a.db"; members := Toy.opened Toy.idle |}) = "a.db"%string.
Proof.
  split.
  - apply (proj2 (setPath_only_before_open Toy.env ToyMore.fresh "a.db")).
    reflexivity.
  - apply (proj1 (setPath_only_before_open Toy.env
                    {| m_path := "a.db"; members := Toy.opened Toy.idle |}
                    "b.db")).
    discriminate.
Defined.

(** X22 on the small engine. *)
Lemma records_carry_the_path_witness :
  exists h' b e w',
    open Toy.env ToyMore.more (setPath Toy.env "a.db" ToyMore.fresh) =
      Some (true, h') /\
    error Toy.env SQLITE_BUSY "COMMIT" (members h') = Some (b, w') /\
    notifier Toy.env w' = [e] /\
    infos e !! "Path"%string = Some "a.db"%string.
Proof.
  destruct (notified_records_carry_the_path Toy.env ToyMore.more ToyMore.fresh
              "a.db" tt (Toy.set_errcode SQLITE_OK Toy.idle) SQLITE_BUSY "COMMIT"
              eq_refl eq_refl)
    as (h' & b & e & w' & Hopen & Hrun & Hsink & Hpath & _); [discriminate|].
  exists h', b, e, w'. auto.
Defined.


(** X25 on the small engine: the empty key is refused. *)
Lemma setCipherKey_witness :
  exists w' e,
    setCipherKey Toy.env ToyMore.more [] (Toy.opened Toy.idle) =
      Some (false, w') /\
    notifier Toy.env w' = [e] /\ code e = SQLITE_ERROR.
Proof.
  destruct (setCipherKey_reports_refusals Toy.env ToyMore.more
              (Toy.opened Toy.idle) tt [] eq_refl)
    as (b & w' & Hrun & _ & _ & _ & _ & _ & Hrefused).
  destruct Hrefused as (Hb & e & Hsink & Hcode & _); [discriminate|].
  exists w', e. rewrite Hb in Hrun. auto.
Defined.
